(** * QMS record intake: identifier allocation, submission and filtering

    A shallow embedding of [QMS_app.py].  The Streamlit page reads the clock,
    a cached copy of a Google sheet and the form widgets, and writes to the
    sheet and to Drive.  Here the reads are arguments of the functions, the
    writes are explicit state passing over a [world], and Python exceptions
    are the [Raise] results of an error monad.

    Text is modelled by [string] over characters with code points below 256.
    Integers are unbounded ([Z]); CPython's optional guard on the number of
    digits converted between [str] and [int] is outside the model. *)

From Stdlib Require Import ZArith NArith Ascii String Lia.
From stdpp Require Import base tactics option list strings gmap.

Local Open Scope Z_scope.

(** ** Exceptions and results *)

Inductive exn : Set :=
  | ValueError   (* int() on text that is not a numeral *)
  | IndexError   (* list index out of range *)
  | KeyError     (* missing dict key *)
  | HttpError    (* googleapiclient: the Drive request failed *)
  | APIError.    (* gspread: the Sheets request failed *)

Inductive result (A : Type) : Type :=
  | Ok (a : A)
  | Raise (e : exn).

Arguments Ok {A} a.
Arguments Raise {A} e.

Definition result_bind {A B : Type} (f : A -> result B) (m : result A) : result B :=
  match m with
  | Ok a => f a
  | Raise e => Raise e
  end.

#[global] Instance result_mret : MRet result := fun _ a => Ok a.
#[global] Instance result_mbind : MBind result := fun _ _ f m => result_bind f m.

Definition is_ok {A : Type} (m : result A) : bool :=
  match m with
  | Ok _ => true
  | Raise _ => false
  end.

(** ** The Python built-ins the page relies on *)

Module Py.

Definition ord (c : ascii) : N := N_of_ascii c.
Definition chr (n : N) : ascii := ascii_of_N n.

(** Characters that [int()] skips around a numeral: the C white space of
    [Py_ISSPACE] and, in the code points 128..255, the Unicode spaces
    U+0085 and U+00A0. *)
Definition isspace (c : ascii) : bool :=
  let n := ord c in
  ((9 <=? n) && (n <=? 13) || (n =? 32) || (n =? 133) || (n =? 160))%N.

Definition digit_of (c : ascii) : option Z :=
  let n := ord c in
  if ((48 <=? n) && (n <=? 57))%N then Some (Z.of_N n - 48) else None.

(** [str.lower()] on code points below 256: A-Z and the Latin-1 capitals
    U+00C0..U+00DE without the multiplication sign U+00D7. *)
Definition lower_char (c : ascii) : ascii :=
  let n := ord c in
  if ((65 <=? n) && (n <=? 90) || (192 <=? n) && (n <=? 214)
      || (216 <=? n) && (n <=? 222))%N
  then chr (n + 32) else c.

Fixpoint lower (s : string) : string :=
  match s with
  | EmptyString => EmptyString
  | String c r => String (lower_char c) (lower r)
  end.

(** [s.startswith(p)] *)
Definition startswith (s p : string) : bool := String.prefix p s.

(** [s.split(sep)] for a one-character separator: never empty. *)
Fixpoint split (sep : ascii) (s : string) : list string :=
  match s with
  | EmptyString => [EmptyString]
  | String c r =>
      if Ascii.eqb c sep then EmptyString :: split sep r
      else match split sep r with
           | seg :: segs => String c seg :: segs
           | [] => [String c EmptyString]
           end
  end.

(** [l[i]] for [i >= 0] and [l[-1]] *)
Definition getitem {A : Type} (l : list A) (i : nat) : result A :=
  match l !! i with
  | Some x => Ok x
  | None => Raise IndexError
  end.

Definition getitem_last {A : Type} (l : list A) : result A :=
  match last l with
  | Some x => Ok x
  | None => Raise IndexError
  end.

(** *** [int(s)], base 10

    Grammar: spaces, an optional sign, a digit, then digits each optionally
    preceded by one underscore, spaces.  Anything else is a [ValueError]. *)

Fixpoint lstrip (s : string) : string :=
  match s with
  | EmptyString => EmptyString
  | String c r => if isspace c then lstrip r else s
  end.

Fixpoint all_space (s : string) : bool :=
  match s with
  | EmptyString => true
  | String c r => isspace c && all_space r
  end.

(** The scan after a first digit; [acc] is the value read so far. *)
Fixpoint int_digits (acc : Z) (s : string) : option Z :=
  match s with
  | EmptyString => Some acc
  | String c r =>
      match digit_of c with
      | Some d => int_digits (10 * acc + d) r
      | None =>
          if Ascii.eqb c "_" then
            match r with
            | String c' r' =>
                match digit_of c' with
                | Some d => int_digits (10 * acc + d) r'
                | None => None
                end
            | EmptyString => None
            end
          else if all_space s then Some acc else None
      end
  end.

Definition int_unsigned (s : string) : option Z :=
  match s with
  | String c r =>
      match digit_of c with
      | Some d => int_digits d r
      | None => None
      end
  | EmptyString => None
  end.

Definition int_signed (s : string) : option Z :=
  match s with
  | String "+" r => int_unsigned r
  | String "-" r => Z.opp <$> int_unsigned r
  | _ => int_unsigned s
  end.

Definition int (s : string) : result Z :=
  match int_signed (lstrip s) with
  | Some n => Ok n
  | None => Raise ValueError
  end.

(** *** [str(n)] and the format specifications [02d], [03d], [04d] *)

Definition digit_char (d : N) : ascii := chr (48 + d).

Fixpoint str_digits (fuel : nat) (n : N) (acc : string) : string :=
  match fuel with
  | O => acc
  | S fuel' =>
      let acc' := String (digit_char (n mod 10)) acc in
      if (n / 10 =? 0)%N then acc' else str_digits fuel' (n / 10) acc'
  end.

Definition str_N (n : N) : string := str_digits (S (N.size_nat n)) n EmptyString.

Fixpoint zeros (k : nat) : string :=
  match k with
  | O => EmptyString
  | S k' => String "0" (zeros k')
  end.

(** [s.rjust(w, "0")] *)
Definition zfill (w : nat) (s : string) : string :=
  zeros (w - String.length s) +:+ s.

(** [format(n, "0wd")]: the padding counts the sign. *)
Definition format_0d (w : nat) (n : Z) : string :=
  if n <? 0 then String "-" (zfill (w - 1) (str_N (Z.to_N (- n))))
  else zfill w (str_N (Z.to_N n)).

End Py.

(** ** Data model *)

(** A sheet row is a list of text cells; a snapshot is what
    [get_all_values()] returned, header first. *)
Abbreviation row := (list string) (only parsing).
Abbreviation snapshot := (list (list string)) (only parsing).

(** The fields of [datetime.now()] that the page formats. *)
Record datetime : Set := mk_datetime {
  year : nat;
  month : nat;
  day : nat;
  hour : nat;
  minute : nat;
  second : nat
}.

Definition strftime_m (t : datetime) : string :=
  Py.format_0d 2 (Z.of_nat (month t)).

Definition strftime_y (t : datetime) : string :=
  Py.format_0d 2 (Z.of_nat (year t mod 100)).

(** [strftime("%Y-%m-%d %H:%M:%S")] *)
Definition strftime_stamp (t : datetime) : string :=
  Py.format_0d 4 (Z.of_nat (year t)) +:+ "-" +:+ Py.format_0d 2 (Z.of_nat (month t))
  +:+ "-" +:+ Py.format_0d 2 (Z.of_nat (day t)) +:+ " "
  +:+ Py.format_0d 2 (Z.of_nat (hour t)) +:+ ":" +:+ Py.format_0d 2 (Z.of_nat (minute t))
  +:+ ":" +:+ Py.format_0d 2 (Z.of_nat (second t)).

(** ** Identifier allocation: [generate_record_id]

    [today] is the value of [datetime.now()] and [cached_values] the value of
    [get_sheet_values_cached(sheet_key)] at the call. *)

(** The f-string [f"{prefix}-{month}{year}"]. *)
Definition id_head (today : datetime) (prefix : string) : string :=
  prefix +:+ "-" +:+ strftime_m today +:+ strftime_y today.

(** [last_row[1] if len(last_row) > 1 else ""] *)
Definition last_id_of (last_row : row) : result string :=
  if decide (1 < length last_row)%nat then Py.getitem last_row 1 else Ok EmptyString.

(** [int(last_id.split("-")[-1])] *)
Definition last_serial_of (last_id : string) : result Z :=
  seg ← Py.getitem_last (Py.split "-" last_id);
  Py.int seg.

Definition generate_record_id
    (today : datetime) (cached_values : snapshot) (prefix : string) : result string :=
  if decide (length cached_values < 2)%nat then
    Ok (id_head today prefix +:+ "-001")
  else
    last_row ← Py.getitem_last cached_values;
    last_id ← last_id_of last_row;
    next_serial ←
      (if Py.startswith last_id (id_head today prefix) then
         last_serial ← last_serial_of last_id;
         Ok (last_serial + 1)
       else Ok 1);
    Ok (id_head today prefix +:+ "-" +:+ Py.format_0d 3 next_serial).

(** ** The record identifier format of the interface description

    Follows the words of the specification (section 6), not the code: the
    page never checks the format.  The pattern is
    [^[A-Z]{1,2}-\d{4}-\d{3}$]; [$] also matches before a final newline. *)

Definition is_upper (c : ascii) : bool :=
  let n := Py.ord c in ((65 <=? n) && (n <=? 90))%N.

Definition is_digit (c : ascii) : bool :=
  match Py.digit_of c with
  | Some _ => true
  | None => false
  end.

Definition at_end (s : string) : bool :=
  match s with
  | EmptyString => true
  | String c EmptyString => Ascii.eqb c "010"
  | _ => false
  end.

(** [-\d{4}-\d{3}$] *)
Definition format_tail (s : string) : bool :=
  match s with
  | String dash1 (String m1 (String m2 (String y1 (String y2
      (String dash2 (String s1 (String s2 (String s3 rest)))))))) =>
      Ascii.eqb dash1 "-" && is_digit m1 && is_digit m2 && is_digit y1 && is_digit y2
      && Ascii.eqb dash2 "-" && is_digit s1 && is_digit s2 && is_digit s3 && at_end rest
  | _ => false
  end.

Definition record_id_format (s : string) : bool :=
  match s with
  | String p1 r =>
      is_upper p1
      && (format_tail r
          || match r with
             | String p2 r' => is_upper p2 && format_tail r'
             | EmptyString => false
             end)
  | EmptyString => false
  end.

(** ** The "My Submissions" tab, for one sheet *)

(** [[row for row in data[1:]
       if user_name.lower() in [cell.lower() for cell in row]]] *)
Definition user_records (data : snapshot) (user_name : string) : list row :=
  filter (fun r : row => Py.lower user_name ∈ (Py.lower <$> r)) (drop 1 data).

Inductive display : Type :=
  | Table (rows : list row)   (* st.table([headers] + user_records) *)
  | Info (sheet : string).    (* st.info("No records found for you in ...") *)

(** The body of the loop over [sheet_data.items()]. *)
Definition my_submissions
    (name : string) (data : snapshot) (user_name : string) : result display :=
  headers ← Py.getitem data 0;
  let records := user_records data user_name in
  Ok (match records with
      | [] => Info name
      | _ :: _ => Table (headers :: records)
      end).

(** ** Submitting a complaint *)

Record uploaded_file : Set := mk_uploaded {
  file_name : string;
  file_type : string;
  file_bytes : string
}.

Record drive_file : Set := mk_drive_file {
  drive_name : string;
  drive_mimetype : string;
  drive_bytes : string
}.

(** What the page writes to: the work sheets by name and the Drive folder. *)
Record world : Type := mk_world {
  sheets : gmap string snapshot;
  drive : list drive_file
}.

(** The widgets of the complaints tab; [severity] is a select box and so
    always holds one of its options. *)
Record complaint_form : Set := mk_complaint {
  product : string;
  severity : string;
  contact_number : string;
  details : string;
  attachment : option uploaded_file
}.

(** What the handler shows: [st.success] or the [st.error] about required
    fields, which the specification calls a ValidationError. *)
Inductive notice : Set :=
  | Registered (record_id file_url : string)
  | ValidationError.

(** Truth value of a [str]. *)
Definition truthy (s : string) : bool :=
  match s with
  | EmptyString => false
  | String _ _ => true
  end.

Section Services.

(** Drive gives a created file an id, or the request fails. *)
Variable drive_create : list drive_file -> drive_file -> option string.
(** Sheets accepts an append request, or the request fails. *)
Variable sheet_accepts : snapshot -> row -> bool.

Definition upload_to_drive
    (uploaded : uploaded_file) (filename : string) (w : world) : result string * world :=
  let f := mk_drive_file filename (file_type uploaded) (file_bytes uploaded) in
  match drive_create (drive w) f with
  | Some id =>
      (Ok ("https://drive.google.com/file/d/" +:+ id +:+ "/view"),
       mk_world (sheets w) (drive w ++ [f]))
  | None => (Raise HttpError, w)
  end.

(** [sheets[name].append_row(new_data)] *)
Definition append_row (name : string) (new_data : row) (w : world) : result unit * world :=
  match sheets w !! name with
  | None => (Raise KeyError, w)
  | Some rows =>
      if sheet_accepts rows new_data
      then (Ok tt, mk_world (<[name := rows ++ [new_data]]> (sheets w)) (drive w))
      else (Raise APIError, w)
  end.

(** The body of [if st.button("Submit Complaint")], with [complaint_id] as
    computed when the tab was drawn and [now] the clock at the click. *)
Definition submit_complaint
    (now : datetime) (user_name complaint_id : string) (form : complaint_form)
    (w : world) : result notice * world :=
  if truthy (product form) && truthy (details form) && truthy (contact_number form) then
    let uploaded :=
      match attachment form with
      | Some u => upload_to_drive u (complaint_id +:+ "_" +:+ file_name u) w
      | None => (Ok EmptyString, w)
      end in
    match uploaded with
    | (Raise e, w1) => (Raise e, w1)
    | (Ok file_url, w1) =>
        let new_data :=
          [strftime_stamp now; complaint_id; product form; severity form;
           contact_number form; details form; user_name; file_url] in
        match append_row "Complaints" new_data w1 with
        | (Raise e, w2) => (Raise e, w2)
        | (Ok _, w2) => (Ok (Registered complaint_id file_url), w2)
        end
    end
  else (Ok ValidationError, w).

(** The complaints tab with the button pressed: the identifier is allocated
    from the snapshot the cache hands out, then the handler runs. *)
Definition complaints_tab
    (today : datetime) (cached_values : snapshot) (user_name : string)
    (form : complaint_form) (w : world) : result notice * world :=
  match generate_record_id today cached_values "C" with
  | Raise e => (Raise e, w)
  | Ok complaint_id => submit_complaint today user_name complaint_id form w
  end.

End Services.

(** ** The deviation and change control tabs *)

(** The widgets of the deviation tab; [deviation_type] is a select box. *)
Record deviation_form : Set := mk_deviation {
  department : string;
  deviation_type : string;
  deviation_description : string;
  deviation_file : option uploaded_file
}.

(** The widgets of the change control tab; [change_type] is a select box. *)
Record change_form : Set := mk_change {
  change_type : string;
  justification : string;
  impact_analysis : string;
  change_file : option uploaded_file
}.

Section Tabs.

Variable drive_create : list drive_file -> drive_file -> option string.
Variable sheet_accepts : snapshot -> row -> bool.

(** The body of [if st.button("Submit Deviation")]. *)
Definition submit_deviation
    (now : datetime) (user_name deviation_id : string) (form : deviation_form)
    (w : world) : result notice * world :=
  if truthy (department form) && truthy (deviation_description form) then
    let uploaded :=
      match deviation_file form with
      | Some u => upload_to_drive drive_create u (deviation_id +:+ "_" +:+ file_name u) w
      | None => (Ok EmptyString, w)
      end in
    match uploaded with
    | (Raise e, w1) => (Raise e, w1)
    | (Ok file_url, w1) =>
        let new_data :=
          [strftime_stamp now; deviation_id; department form; deviation_type form;
           deviation_description form; user_name; file_url] in
        match append_row sheet_accepts "Deviation" new_data w1 with
        | (Raise e, w2) => (Raise e, w2)
        | (Ok _, w2) => (Ok (Registered deviation_id file_url), w2)
        end
    end
  else (Ok ValidationError, w).

(** The body of [if st.button("Submit Change Request")]. *)
Definition submit_change_request
    (now : datetime) (user_name change_id : string) (form : change_form)
    (w : world) : result notice * world :=
  if truthy (change_type form) && truthy (justification form)
     && truthy (impact_analysis form) then
    let uploaded :=
      match change_file form with
      | Some u => upload_to_drive drive_create u (change_id +:+ "_" +:+ file_name u) w
      | None => (Ok EmptyString, w)
      end in
    match uploaded with
    | (Raise e, w1) => (Raise e, w1)
    | (Ok file_url, w1) =>
        let new_data :=
          [strftime_stamp now; change_id; change_type form; justification form;
           impact_analysis form; user_name; file_url] in
        match append_row sheet_accepts "Change Control" new_data w1 with
        | (Raise e, w2) => (Raise e, w2)
        | (Ok _, w2) => (Ok (Registered change_id file_url), w2)
        end
    end
  else (Ok ValidationError, w).

(** ** One run of the page, up to the three intake tabs

    Streamlit runs the script from the top at each interaction; at most one
    button reads as pressed.  [cached] gives, by sheet name, the snapshot
    that [get_sheet_values_cached] returns in this run, and [today] is the
    clock of the run. *)

Inductive button : Set :=
  | SubmitComplaint
  | SubmitDeviation
  | SubmitChangeRequest.

#[global] Instance button_eq_dec : EqDecision button.
Proof. solve_decision. Defined.

Record widgets : Set := mk_widgets {
  user_name_box : string;
  complaint_box : complaint_form;
  deviation_box : deviation_form;
  change_box : change_form;
  pressed : option button
}.

(** What a run leaves on the page: stopped at the name prompt, or the three
    tabs drawn with the identifiers they computed and what a handler showed. *)
Inductive intake : Set :=
  | Stopped
  | Drawn (complaint_id deviation_id change_id : string) (shown : option notice).

Definition io (A : Type) : Type := world -> result A * world.

Definition io_ret {A : Type} (a : A) : io A := fun w => (Ok a, w).

Definition io_lift {A : Type} (r : result A) : io A := fun w => (r, w).

Definition io_bind {A B : Type} (m : io A) (k : A -> io B) : io B :=
  fun w =>
    match m w with
    | (Ok a, w1) => k a w1
    | (Raise e, w1) => (Raise e, w1)
    end.

Definition when_pressed (ui : widgets) (b : button) (handler : io notice) : io (option notice) :=
  match pressed ui with
  | Some b' =>
      if decide (b' = b) then io_bind handler (fun n => io_ret (Some n)) else io_ret None
  | None => io_ret None
  end.

(** The notice of the one handler that ran, if any. *)
Definition first_shown (a b c : option notice) : option notice :=
  match a, b with
  | Some n, _ => Some n
  | None, Some n => Some n
  | None, None => c
  end.

Definition page_intake
    (today : datetime) (cached : string -> snapshot) (ui : widgets) : io intake :=
  if truthy (user_name_box ui) then
    io_bind (io_lift (generate_record_id today (cached "Complaints") "C")) (fun complaint_id =>
    io_bind (when_pressed ui SubmitComplaint
               (submit_complaint drive_create sheet_accepts today (user_name_box ui)
                  complaint_id (complaint_box ui))) (fun shown1 =>
    io_bind (io_lift (generate_record_id today (cached "Deviation") "D")) (fun deviation_id =>
    io_bind (when_pressed ui SubmitDeviation
               (submit_deviation today (user_name_box ui) deviation_id
                  (deviation_box ui))) (fun shown2 =>
    io_bind (io_lift (generate_record_id today (cached "Change Control") "CC")) (fun change_id =>
    io_bind (when_pressed ui SubmitChangeRequest
               (submit_change_request today (user_name_box ui) change_id
                  (change_box ui))) (fun shown3 =>
    io_ret (Drawn complaint_id deviation_id change_id
              (first_shown shown1 shown2 shown3))))))))
  else io_ret Stopped.

End Tabs.

(** ** The views: "My Submissions" over all sheets, and the admin panel *)

(** The names the page gives its sheets, in the order of [get_sheets]. *)
Definition sheet_names : list string := ["Complaints"; "Deviation"; "Change Control"].

(** What the loop has put on the page: Streamlit draws each element when
    its call runs, and what is drawn stays when a later line raises. *)
Inductive drawn : Type :=
  | Heading (sheet : string)   (* st.subheader(f"... {name} Records") *)
  | Body (shown : display).    (* st.table(...) or st.info(...) *)

(** [for name, data in sheet_data.items(): ...]: the elements drawn, in
    order, and the exception that ended the loop, if any.  The heading of a
    sheet is drawn before its header row is read. *)
Fixpoint my_tab_loop
    (names : list string) (sheet_data : string -> snapshot) (user_name : string)
    : list drawn * option exn :=
  match names with
  | [] => ([], None)
  | name :: names' =>
      match my_submissions name (sheet_data name) user_name with
      | Raise e => ([Heading name], Some e)
      | Ok shown =>
          let '(more, ended) := my_tab_loop names' sheet_data user_name in
          (Heading name :: Body shown :: more, ended)
      end
  end.

Definition my_tab (sheet_data : string -> snapshot) (user_name : string)
    : list drawn * option exn :=
  my_tab_loop sheet_names sheet_data user_name.

Inductive admin_view : Type :=
  | Denied                           (* st.error("Incorrect password! ...") *)
  | Granted (tabs : list display).   (* st.success and the three tabs *)

(** [st.dataframe(data)] if [len(data) > 1], else [st.info]. *)
Definition admin_sheet (name : string) (data : snapshot) : display :=
  if decide (1 < length data)%nat then Table data else Info name.

(** The body of [if st.button("Access QA Admin Panel")]. *)
Definition admin_panel (admin_password : string) (sheet_data : string -> snapshot)
    : admin_view :=
  if String.eqb admin_password "qaadmin123" then
    Granted [admin_sheet "Complaints" (sheet_data "Complaints");
             admin_sheet "Deviation" (sheet_data "Deviation");
             admin_sheet "Change Control" (sheet_data "Change Control")]
  else Denied.

(** ** Notions used to state the properties *)

(** [c in s] *)
Fixpoint has_char (c : ascii) (s : string) : bool :=
  match s with
  | EmptyString => false
  | String a r => Ascii.eqb a c || has_char c r
  end.

Fixpoint all_digits (s : string) : bool :=
  match s with
  | EmptyString => true
  | String c r => is_digit c && all_digits r
  end.

(** The number a run of decimal digits denotes, continuing from [acc]. *)
Fixpoint dec_value (acc : Z) (s : string) : Z :=
  match s with
  | EmptyString => acc
  | String c r => dec_value (10 * acc + default 0 (Py.digit_of c)) r
  end.

(** The part the three handlers share once the required fields are there:
    the optional upload under [{record_id}_{file name}], then the append of
    the row built around the link. *)
Definition drive_copy (record_id : string) (u : uploaded_file) : drive_file :=
  mk_drive_file (record_id +:+ "_" +:+ file_name u) (file_type u) (file_bytes u).

Definition drive_link (file_id : string) : string :=
  "https://drive.google.com/file/d/" +:+ file_id +:+ "/view".

Definition register
    (drive_create : list drive_file -> drive_file -> option string)
    (sheet_accepts : snapshot -> row -> bool)
    (sheet record_id : string) (file : option uploaded_file) (new_data : string -> row)
    (w : world) : result notice * world :=
  let uploaded :=
    match file with
    | Some u => upload_to_drive drive_create u (record_id +:+ "_" +:+ file_name u) w
    | None => (Ok EmptyString, w)
    end in
  match uploaded with
  | (Raise e, w1) => (Raise e, w1)
  | (Ok file_url, w1) =>
      match append_row sheet_accepts sheet (new_data file_url) w1 with
      | (Raise e, w2) => (Raise e, w2)
      | (Ok _, w2) => (Ok (Registered record_id file_url), w2)
      end
  end.

(** What is in Drive after the upload step. *)
Definition drive_after
    (drive_create : list drive_file -> drive_file -> option string)
    (record_id : string) (file : option uploaded_file) (w : world) : list drive_file :=
  match file with
  | Some u =>
      match drive_create (drive w) (drive_copy record_id u) with
      | Some _ => drive w ++ [drive_copy record_id u]
      | None => drive w
      end
  | None => drive w
  end.

(** The rows of a sheet as a fresh read returns them. *)
Definition rows_of (sheet : string) (w : world) : snapshot :=
  default [] (sheets w !! sheet).

(** The sheet a button writes to. *)
Definition sheet_of (b : button) : string :=
  match b with
  | SubmitComplaint => "Complaints"
  | SubmitDeviation => "Deviation"
  | SubmitChangeRequest => "Change Control"
  end.

(** The words of the specification for the filter: the submitter's name
    equals some cell of the row, case being ignored. *)
Definition same_ignoring_case (a b : string) : Prop := Py.lower a = Py.lower b.

#[global] Instance same_ignoring_case_dec a b : Decision (same_ignoring_case a b).
Proof. unfold same_ignoring_case. apply _. Defined.

Definition names_submitter (user_name : string) (r : row) : Prop :=
  Exists (same_ignoring_case user_name) r.

#[global] Instance names_submitter_dec user_name r : Decision (names_submitter user_name r).
Proof. unfold names_submitter. apply _. Defined.

(** The same form with another choice in the severity box. *)
Definition with_severity (sev : string) (form : complaint_form) : complaint_form :=
  mk_complaint (product form) sev (contact_number form) (details form) (attachment form).

(** The rows of the complaints sheet as a fresh read returns them. *)
Definition complaints_of (w : world) : snapshot :=
  default [] (sheets w !! "Complaints").

(** ** Sample data *)

Definition march_2025 : datetime := mk_datetime 2025 3 14 9 30 0.
Definition april_2025 : datetime := mk_datetime 2025 4 2 8 0 0.

Definition complaints_header : row :=
  ["Timestamp"; "Complaint ID"; "Product"; "Severity"; "Contact"; "Details";
   "Submitted By"; "Attachment"].

(** A data row of the complaints sheet carrying [id]. *)
Definition complaint_row (id submitter : string) : row :=
  ["2025-03-01 10:00:00"; id; "Aspirin"; "High"; "555-0100"; "Broken seal"; submitter; ""].

Definition empty_store : world :=
  mk_world {["Complaints" := [complaints_header]]} [].

Definition drive_up : list drive_file -> drive_file -> option string :=
  fun files _ => Some (Py.str_N (N.of_nat (length files))).
Definition drive_down : list drive_file -> drive_file -> option string :=
  fun _ _ => None.
Definition sheet_up : snapshot -> row -> bool := fun _ _ => true.
Definition sheet_down : snapshot -> row -> bool := fun _ _ => false.

Definition aspirin : complaint_form :=
  mk_complaint "Aspirin" "High" "555-0100" "Broken seal" None.

Definition cold_room : deviation_form :=
  mk_deviation "Warehouse" "Major" "Cold room above 8 C for two hours" None.

Definition new_mixer : change_form :=
  mk_change "Equipment" "Replace mixer M-2" "Revalidation of line 2"
    (Some (mk_uploaded "quote.pdf" "application/pdf" "PDF")).

Definition deviation_header : row :=
  ["Timestamp"; "Deviation ID"; "Department"; "Type"; "Details"; "Submitted By";
   "Attachment"].

Definition change_header : row :=
  ["Timestamp"; "Change ID"; "Type"; "Justification"; "Impact"; "Submitted By";
   "Attachment"].

Definition three_sheets : world :=
  mk_world {["Complaints" := [complaints_header]; "Deviation" := [deviation_header];
             "Change Control" := [change_header]]} [].

Definition aspirin_with_photo : complaint_form :=
  mk_complaint "Aspirin" "High" "555-0100" "Broken seal"
    (Some (mk_uploaded "seal.png" "image/png" "PNG")).

(** * Properties *)

(** ** Text *)

Section Text.

Implicit Types (s t u p : string) (c : ascii).

Lemma str_app_nil_l s : "" +:+ s = s.
Proof. reflexivity. Qed.

Lemma str_app_cons c s t : String c s +:+ t = String c (s +:+ t).
Proof. reflexivity. Qed.

Lemma str_app_assoc s t u : (s +:+ t) +:+ u = s +:+ (t +:+ u).
Proof.
  induction s as [|c s IH]; [reflexivity|].
  rewrite !str_app_cons. by rewrite IH.
Qed.

Lemma str_app_nil_r s : s +:+ "" = s.
Proof.
  induction s as [|c s IH]; [reflexivity|].
  rewrite str_app_cons. by rewrite IH.
Qed.

Lemma str_length_app s t : String.length (s +:+ t) = (String.length s + String.length t)%nat.
Proof.
  induction s as [|c s IH]; [reflexivity|].
  rewrite str_app_cons. simpl. by rewrite IH.
Qed.

Lemma startswith_app p s : Py.startswith (p +:+ s) p = true.
Proof.
  unfold Py.startswith.
  induction p as [|c p IH]; [by destruct s|].
  rewrite str_app_cons. simpl. by destruct (ascii_dec c c).
Qed.

Lemma startswith_nil p : Py.startswith "" p = true -> p = "".
Proof. by destruct p. Qed.

(** A text that goes on after [p] with [c] does not start with [p]
    followed by another character. *)
Lemma startswith_diverge p c c' s t :
  c <> c' -> Py.startswith (p +:+ String c s) (p +:+ String c' t) = false.
Proof.
  intros Hc. unfold Py.startswith.
  induction p as [|a p IH].
  - simpl. destruct (ascii_dec c' c); congruence.
  - rewrite !str_app_cons. simpl. by destruct (ascii_dec a a).
Qed.

Lemma startswith_spec s p : Py.startswith s p = true <-> exists t, s = p +:+ t.
Proof.
  unfold Py.startswith. split.
  - revert s. induction p as [|c p IH]; intros s H.
    + by exists s.
    + destruct s as [|a s]; [done|]. simpl in H.
      destruct (ascii_dec c a) as [->|]; [|done].
      destruct (IH s H) as [t ->]. by exists t.
  - intros [t ->]. apply startswith_app.
Qed.

End Text.

(** ** The shape of an allocation *)

Ltac run_result :=
  unfold mbind, result_mbind, result_bind, Py.getitem_last, Py.getitem.

(** With at least one data row, the outcome is decided by the last row. *)
Lemma generate_record_id_last today cached_values prefix last_row :
  (2 <= length cached_values)%nat ->
  last cached_values = Some last_row ->
  generate_record_id today cached_values prefix =
    let last_id := default "" (last_row !! 1%nat) in
    if Py.startswith last_id (id_head today prefix) then
      match last_serial_of last_id with
      | Ok n => Ok (id_head today prefix +:+ "-" +:+ Py.format_0d 3 (n + 1))
      | Raise e => Raise e
      end
    else Ok (id_head today prefix +:+ "-" +:+ Py.format_0d 3 1).
Proof.
  intros Hlen Hlast. unfold generate_record_id.
  destruct (decide (length cached_values < 2)%nat) as [|_]; [lia|].
  run_result. rewrite Hlast. unfold last_id_of. run_result.
  destruct (decide (1 < length last_row)%nat) as [Hcells|Hcells].
  - destruct (lookup_lt_is_Some_2 last_row 1%nat Hcells) as [last_id Hid].
    rewrite !Hid. simpl.
    destruct (Py.startswith last_id (id_head today prefix)); [|done].
    by destruct (last_serial_of last_id).
  - rewrite !(lookup_ge_None_2 last_row 1%nat) by lia. simpl.
    by destruct (id_head today prefix).
Qed.

Lemma id_head_eq today prefix s :
  id_head today prefix +:+ s = prefix +:+ "-" +:+ strftime_m today +:+ strftime_y today +:+ s.
Proof. unfold id_head. by rewrite !str_app_assoc. Qed.

Lemma id_head_not_nil today prefix : id_head today prefix <> "".
Proof.
  unfold id_head. intros H.
  apply (f_equal String.length) in H. rewrite str_length_app in H. simpl in H. lia.
Qed.

Lemma format_001 : Py.format_0d 3 1 = "001".
Proof. reflexivity. Qed.

(** The early return of line 50. *)
Lemma generate_record_id_short today (cached_values : snapshot) prefix :
  (length cached_values < 2)%nat ->
  generate_record_id today cached_values prefix = Ok (id_head today prefix +:+ "-001").
Proof.
  intros Hlen. unfold generate_record_id.
  by destruct (decide (length cached_values < 2)%nat) as [_|]; [|lia].
Qed.

(** The [else] branch of line 56. *)
Lemma generate_record_id_reset today (cached_values : snapshot) prefix last_row last_id :
  (2 <= length cached_values)%nat ->
  last cached_values = Some last_row ->
  last_row !! 1%nat = Some last_id ->
  Py.startswith last_id (id_head today prefix) = false ->
  generate_record_id today cached_values prefix = Ok (id_head today prefix +:+ "-001").
Proof.
  intros Hlen Hlast Hid Hno.
  rewrite (generate_record_id_last _ _ _ _ Hlen Hlast), Hid. simpl.
  by rewrite Hno, format_001.
Qed.

(** C2. Whatever the prefix, a snapshot with fewer than two rows (empty, or
    the header alone) is given the identifier [{prefix}-{MM}{YY}-001] of the
    current month and year. *)
Theorem allocate_first_of_empty today (cached_values : snapshot) prefix :
  (length cached_values < 2)%nat ->
  generate_record_id today cached_values prefix =
    Ok (prefix +:+ "-" +:+ strftime_m today +:+ strftime_y today +:+ "-001").
Proof.
  intros Hlen. by rewrite (generate_record_id_short _ _ _ Hlen), id_head_eq.
Qed.

Lemma allocate_first_of_empty_witness :
  generate_record_id march_2025 [complaints_header] "CC" = Ok "CC-0325-001".
Proof. apply (allocate_first_of_empty march_2025 [complaints_header] "CC"). simpl. lia. Defined.

(** C3. With at least two rows and a last identifier that does not start
    with the current [{prefix}-{MM}{YY}], the serial starts again: the result
    is [{prefix}-{MM}{YY}-001]. *)
Theorem allocate_resets_on_mismatch today (cached_values : snapshot) prefix last_row last_id :
  (2 <= length cached_values)%nat ->
  last cached_values = Some last_row ->
  last_row !! 1%nat = Some last_id ->
  Py.startswith last_id (prefix +:+ "-" +:+ strftime_m today +:+ strftime_y today) = false ->
  generate_record_id today cached_values prefix =
    Ok (prefix +:+ "-" +:+ strftime_m today +:+ strftime_y today +:+ "-001").
Proof.
  intros Hlen Hlast Hid Hno.
  rewrite (generate_record_id_last _ _ _ _ Hlen Hlast), Hid. simpl.
  fold (id_head today prefix) in Hno. rewrite Hno.
  by rewrite format_001, id_head_eq.
Qed.

Lemma allocate_resets_on_mismatch_witness :
  generate_record_id april_2025
    [complaints_header; complaint_row "C-0325-004" "alice"] "C" = Ok "C-0425-001".
Proof.
  apply (allocate_resets_on_mismatch april_2025
           [complaints_header; complaint_row "C-0325-004" "alice"] "C"
           (complaint_row "C-0325-004" "alice") "C-0325-004");
    [simpl; lia | reflexivity | reflexivity | reflexivity].
Defined.

(** C10. With at least two rows and a last row of fewer than two cells, the
    missing identifier column is read as the empty text: no exception, the
    serial starts again and the result is [{prefix}-{MM}{YY}-001]. *)
Theorem allocate_short_last_row today (cached_values : snapshot) prefix last_row :
  (2 <= length cached_values)%nat ->
  last cached_values = Some last_row ->
  (length last_row < 2)%nat ->
  last_id_of last_row = Ok "" /\
  generate_record_id today cached_values prefix =
    Ok (prefix +:+ "-" +:+ strftime_m today +:+ strftime_y today +:+ "-001").
Proof.
  intros Hlen Hlast Hcells. split.
  - unfold last_id_of. destruct (decide (1 < length last_row)%nat); [lia|done].
  - rewrite (generate_record_id_last _ _ _ _ Hlen Hlast).
    rewrite (lookup_ge_None_2 last_row 1%nat) by lia. simpl.
    pose proof (id_head_not_nil today prefix) as Hne.
    destruct (id_head today prefix) eqn:Hhead; [done|].
    rewrite <- Hhead. by rewrite format_001, id_head_eq.
Qed.

Lemma allocate_short_last_row_witness :
  last_id_of ["2025-04-02 08:00:00"] = Ok "" /\
  generate_record_id april_2025 [complaints_header; ["2025-04-02 08:00:00"]] "D"
    = Ok "D-0425-001".
Proof.
  apply (allocate_short_last_row april_2025
           [complaints_header; ["2025-04-02 08:00:00"]] "D" ["2025-04-02 08:00:00"]);
    [simpl; lia | reflexivity | simpl; lia].
Defined.

(** C8. When the last identifier carries a longer prefix that extends the
    current one by a character other than the dash (as [CC-MMYY-SSS] does
    for the prefix [C]), its serial is not continued: the dash that follows
    the prefix in the comparison fails to match, and the result is
    [{prefix}-{MM}{YY}-001]. *)
Theorem allocate_longer_prefix_resets
    today (cached_values : snapshot) prefix c ext rest last_row :
  (2 <= length cached_values)%nat ->
  last cached_values = Some last_row ->
  last_row !! 1%nat = Some ((prefix +:+ String c ext) +:+ "-" +:+ rest) ->
  c <> "-"%char ->
  Py.startswith ((prefix +:+ String c ext) +:+ "-" +:+ rest)
    (prefix +:+ "-" +:+ strftime_m today +:+ strftime_y today) = false /\
  generate_record_id today cached_values prefix =
    Ok (prefix +:+ "-" +:+ strftime_m today +:+ strftime_y today +:+ "-001").
Proof.
  intros Hlen Hlast Hid Hc.
  assert (Py.startswith ((prefix +:+ String c ext) +:+ "-" +:+ rest)
            (prefix +:+ "-" +:+ strftime_m today +:+ strftime_y today) = false) as Hno.
  { rewrite !str_app_assoc, str_app_cons. by apply startswith_diverge. }
  split; [done|].
  by rewrite (generate_record_id_reset _ _ _ _ _ Hlen Hlast Hid Hno), id_head_eq.
Qed.

Lemma allocate_longer_prefix_resets_witness :
  Py.startswith "CC-0325-007" "C-0325" = false /\
  generate_record_id march_2025
    [complaints_header; complaint_row "CC-0325-007" "alice"] "C" = Ok "C-0325-001".
Proof.
  apply (allocate_longer_prefix_resets march_2025
           [complaints_header; complaint_row "CC-0325-007" "alice"] "C" "C"%char "" "0325-007"
           (complaint_row "CC-0325-007" "alice"));
    [simpl; lia | reflexivity | reflexivity | discriminate].
Defined.

(** C5. The identifier is a function of the snapshot, the prefix and the
    month and two-digit year of the clock, and of nothing else: two calls
    that agree on these return the same result, be it an identifier or an
    exception. *)
Theorem allocate_deterministic today1 today2 (cached_values : snapshot) prefix :
  month today1 = month today2 ->
  (year today1 mod 100 = year today2 mod 100)%nat ->
  generate_record_id today1 cached_values prefix
  = generate_record_id today2 cached_values prefix.
Proof.
  intros Hm Hy. unfold generate_record_id, id_head, strftime_m, strftime_y.
  by rewrite Hm, Hy.
Qed.

Lemma allocate_deterministic_witness :
  generate_record_id (mk_datetime 2025 3 1 0 0 0)
    [complaints_header; complaint_row "C-0325-004" "alice"] "C"
  = generate_record_id (mk_datetime 1925 3 31 23 59 59)
      [complaints_header; complaint_row "C-0325-004" "alice"] "C".
Proof.
  apply (allocate_deterministic (mk_datetime 2025 3 1 0 0 0) (mk_datetime 1925 3 31 23 59 59));
    reflexivity.
Defined.

(** ** Numerals: [int] reads what [format] writes *)

Section Numerals.

Implicit Types (s t : string) (c : ascii) (n : N) (acc : Z).

Lemma ord_chr n : (n < 256)%N -> Py.ord (Py.chr n) = n.
Proof. apply N_ascii_embedding. Qed.

Lemma digit_of_digit_char n :
  (n < 10)%N -> Py.digit_of (Py.digit_char n) = Some (Z.of_N n).
Proof.
  intros Hn. unfold Py.digit_of, Py.digit_char.
  rewrite ord_chr by lia.
  destruct ((48 <=? 48 + n)%N && (48 + n <=? 57)%N) eqn:Hr.
  - f_equal. lia.
  - apply andb_false_iff in Hr as [Hr|Hr]; [apply N.leb_gt in Hr|apply N.leb_gt in Hr]; lia.
Qed.

Lemma is_digit_digit_char n : (n < 10)%N -> is_digit (Py.digit_char n) = true.
Proof. intros Hn. unfold is_digit. by rewrite digit_of_digit_char. Qed.

Lemma digit_of_range c d : Py.digit_of c = Some d -> 0 <= d < 10.
Proof.
  unfold Py.digit_of.
  destruct ((48 <=? Py.ord c)%N && (Py.ord c <=? 57)%N) eqn:Hr; [|done].
  apply andb_true_iff in Hr as [H1%N.leb_le H2%N.leb_le].
  intros [= <-]. lia.
Qed.

(** A digit is neither a space, nor a sign, nor an underscore. *)
Lemma digit_plain c :
  is_digit c = true ->
  Py.isspace c = false /\ Ascii.eqb c "_" = false /\ Ascii.eqb c "-" = false
  /\ c <> "+"%char /\ c <> "-"%char.
Proof. destruct c as [[] [] [] [] [] [] [] []]; by vm_compute. Qed.

(** The three ways [int] goes on after the leading spaces. *)
Lemma int_signed_cases c s :
  (c = "+"%char /\ Py.int_signed (String c s) = Py.int_unsigned s)
  \/ (c = "-"%char /\ Py.int_signed (String c s) = Z.opp <$> Py.int_unsigned s)
  \/ (c <> "+"%char /\ c <> "-"%char
      /\ Py.int_signed (String c s) = Py.int_unsigned (String c s)).
Proof.
  destruct c as [[] [] [] [] [] [] [] []];
    first [by left | by right; left | by right; right].
Qed.

Lemma int_digits_nonneg acc s k : 0 <= acc -> Py.int_digits acc s = Some k -> 0 <= k.
Proof.
  revert acc. induction s as [|c s IH]; intros acc Hacc; simpl.
  - intros [= <-]. done.
  - destruct (Py.digit_of c) as [d|] eqn:Hd.
    + apply digit_of_range in Hd. apply IH. lia.
    + destruct (Ascii.eqb c "_").
      * destruct s as [|c' s']; [done|].
        destruct (Py.digit_of c') as [d'|] eqn:Hd'; [|done].
        intros Hs. apply (IH acc Hacc). simpl. by rewrite Hd'.
      * destruct (Py.isspace c && Py.all_space s); [|done]. by intros [= <-].
Qed.

Lemma int_unsigned_nonneg s k : Py.int_unsigned s = Some k -> 0 <= k.
Proof.
  destruct s as [|c s]; [done|]. simpl.
  destruct (Py.digit_of c) as [d|] eqn:Hd; [|done].
  apply digit_of_range in Hd. apply int_digits_nonneg. lia.
Qed.

Lemma has_char_lstrip c s : has_char c s = false -> has_char c (Py.lstrip s) = false.
Proof.
  induction s as [|a s IH]; [done|]. simpl.
  intros [Ha Hs]%orb_false_iff. destruct (Py.isspace a); [by apply IH|].
  simpl. by rewrite Ha, Hs.
Qed.

(** Without a dash in the text, [int] cannot read a negative number. *)
Lemma int_nonneg s k : has_char "-" s = false -> Py.int s = Ok k -> 0 <= k.
Proof.
  intros Hs%has_char_lstrip. unfold Py.int.
  destruct (Py.lstrip s) as [|c r]; [done|].
  simpl in Hs. apply orb_false_iff in Hs as [Hc _].
  destruct (int_signed_cases c r) as [[_ ->]|[[-> _]|(_ & _ & ->)]]; [|done|].
  - destruct (Py.int_unsigned r) eqn:Hr; [|done].
    intros [= <-]. by apply (int_unsigned_nonneg r).
  - destruct (Py.int_unsigned (String c r)) eqn:Hr; [|done].
    intros [= <-]. by apply (int_unsigned_nonneg (String c r)).
Qed.

Lemma int_digits_all_digits acc s :
  all_digits s = true -> Py.int_digits acc s = Some (dec_value acc s).
Proof.
  revert acc. induction s as [|c s IH]; intros acc Hs; [done|].
  simpl in Hs. apply andb_true_iff in Hs as [Hc Hs].
  simpl. unfold is_digit in Hc.
  destruct (Py.digit_of c) as [d|]; [|done]. simpl. by apply IH.
Qed.

(** On a nonempty run of digits [int] is decimal notation. *)
Lemma int_all_digits s :
  s <> "" -> all_digits s = true -> Py.int s = Ok (dec_value 0 s).
Proof.
  destruct s as [|c s]; [done|]. intros _ Hs.
  simpl in Hs. apply andb_true_iff in Hs as [Hc Hs].
  destruct (digit_plain c Hc) as (Hsp & _ & _ & Hplus & Hminus).
  unfold Py.int. simpl Py.lstrip. rewrite Hsp.
  destruct (int_signed_cases c s) as [[-> _]|[[-> _]|(_ & _ & ->)]]; [done..|].
  unfold Py.int_unsigned. unfold is_digit in Hc.
  destruct (Py.digit_of c) as [d|] eqn:Hd; [|done].
  rewrite (int_digits_all_digits _ _ Hs). simpl. rewrite Hd. simpl.
  by replace (10 * 0 + d) with d by lia.
Qed.

Lemma all_digits_app s t :
  all_digits (s +:+ t) = all_digits s && all_digits t.
Proof.
  induction s as [|c s IH]; [done|].
  rewrite str_app_cons. simpl. rewrite IH. by rewrite andb_assoc.
Qed.

Lemma dec_value_app acc s t :
  dec_value acc (s +:+ t) = dec_value (dec_value acc s) t.
Proof.
  revert acc. induction s as [|c s IH]; intros acc; [done|].
  rewrite str_app_cons. simpl. apply IH.
Qed.

Lemma all_digits_zeros k : all_digits (Py.zeros k) = true.
Proof. induction k as [|k IH]; [done|]. simpl. by rewrite IH. Qed.

Lemma dec_value_zeros k : dec_value 0 (Py.zeros k) = 0.
Proof. induction k as [|k IH]; [done|]. simpl. apply IH. Qed.

Lemma length_zeros k : String.length (Py.zeros k) = k.
Proof. induction k as [|k IH]; [done|]. simpl. by rewrite IH. Qed.

(** What [str_digits] puts in front of [acc]: the decimal digits of [n],
    most significant first and without a leading zero. *)
Lemma str_digits_spec fuel n t :
  (n < 2 ^ N.of_nat fuel)%N -> fuel <> O ->
  exists ds,
    Py.str_digits fuel n t = ds +:+ t
    /\ ds <> "" /\ all_digits ds = true
    /\ (forall acc, dec_value acc ds = acc * 10 ^ Z.of_nat (String.length ds) + Z.of_N n)
    /\ Z.of_N n < 10 ^ Z.of_nat (String.length ds)
    /\ (String.length ds = 1%nat \/ 10 ^ (Z.of_nat (String.length ds) - 1) <= Z.of_N n).
Proof.
  revert n t. induction fuel as [|fuel IH]; intros n t Hn Hfuel; [done|].
  pose proof (N.mod_upper_bound n 10 ltac:(lia)) as Hd.
  pose proof (N.div_mod n 10 ltac:(lia)) as Hdm.
  assert (n / 10 < 2 ^ N.of_nat fuel)%N as Hn'.
  { rewrite Nat2N.inj_succ, N.pow_succ_r' in Hn.
    apply N.Div0.div_lt_upper_bound. lia. }
  simpl. specialize (IH (n / 10)%N).
  remember (n / 10)%N as q eqn:Hq. remember (n mod 10)%N as r eqn:Hr.
  clear Hq Hr. destruct (q =? 0)%N eqn:Hq0.
  - apply N.eqb_eq in Hq0.
    exists (String (Py.digit_char r) ""). split; [done|].
    split; [done|]. split; [simpl; by rewrite is_digit_digit_char|].
    split; [|split; [simpl; lia|by left]].
    intros acc. simpl. rewrite digit_of_digit_char by done. simpl. lia.
  - apply N.eqb_neq in Hq0.
    assert (fuel <> O) as Hfuel'.
    { intros ->. simpl in Hn'. lia. }
    destruct (IH (String (Py.digit_char r) t) Hn' Hfuel')
      as (ds & Heq & Hne & Hall & Hval & Hub & Hlb).
    exists (ds +:+ String (Py.digit_char r) "").
    split; [by rewrite Heq, str_app_assoc, str_app_cons|].
    split; [by destruct ds|].
    split; [rewrite all_digits_app, Hall; simpl; by rewrite is_digit_digit_char|].
    rewrite str_length_app. simpl String.length.
    replace (Z.of_nat (String.length ds + 1)) with (Z.succ (Z.of_nat (String.length ds))) by lia.
    rewrite Z.pow_succ_r by lia.
    split; [|split].
    + intros acc. rewrite dec_value_app, Hval. simpl.
      rewrite digit_of_digit_char by done. simpl. lia.
    + lia.
    + right. replace (Z.succ (Z.of_nat (String.length ds)) - 1)
        with (Z.of_nat (String.length ds)) by lia.
      destruct Hlb as [Hlb|Hlb].
      * rewrite Hlb. change (10 ^ Z.of_nat 1) with 10. lia.
      * replace (Z.of_nat (String.length ds))
          with (Z.succ (Z.of_nat (String.length ds) - 1)) by lia.
        rewrite Z.pow_succ_r; [lia|].
        destruct ds; [done|simpl; lia].
Qed.

Lemma size_nat_gt n : (n < 2 ^ N.of_nat (S (N.size_nat n)))%N.
Proof.
  rewrite Nat2N.inj_succ, N.pow_succ_r'.
  destruct n as [|p]; [done|]. simpl N.size_nat.
  enough (N.pos p < 2 ^ N.of_nat (Pos.size_nat p))%N by lia.
  induction p as [p IH|p IH|]; simpl Pos.size_nat;
    rewrite ?Nat2N.inj_succ, ?N.pow_succ_r'; simpl; lia.
Qed.

Lemma str_N_spec n :
  Py.str_N n <> ""
  /\ all_digits (Py.str_N n) = true
  /\ dec_value 0 (Py.str_N n) = Z.of_N n
  /\ Z.of_N n < 10 ^ Z.of_nat (String.length (Py.str_N n))
  /\ (String.length (Py.str_N n) = 1%nat
      \/ 10 ^ (Z.of_nat (String.length (Py.str_N n)) - 1) <= Z.of_N n).
Proof.
  unfold Py.str_N.
  destruct (str_digits_spec (S (N.size_nat n)) n "" (size_nat_gt n) ltac:(done))
    as (ds & Heq & Hne & Hall & Hval & Hub & Hlb).
  rewrite Heq, str_app_nil_r. by rewrite (Hval 0).
Qed.

Lemma zfill_spec w s :
  all_digits s = true ->
  all_digits (Py.zfill w s) = true
  /\ dec_value 0 (Py.zfill w s) = dec_value 0 s
  /\ String.length (Py.zfill w s) = (w `max` String.length s)%nat.
Proof.
  intros Hs. unfold Py.zfill.
  rewrite all_digits_app, all_digits_zeros, dec_value_app, dec_value_zeros, str_length_app,
    length_zeros.
  repeat split; [done|lia].
Qed.

(** The padded numeral of a natural number reads back as that number. *)
Lemma int_format_0d w (k : Z) :
  0 <= k -> Py.int (Py.format_0d w k) = Ok k.
Proof.
  intros Hk. unfold Py.format_0d.
  destruct (k <? 0) eqn:Hneg; [apply Z.ltb_lt in Hneg; lia|].
  destruct (str_N_spec (Z.to_N k)) as (Hne & Hall & Hval & _).
  destruct (zfill_spec w _ Hall) as (Hall' & Hval' & _).
  rewrite int_all_digits; [|unfold Py.zfill|done].
  - rewrite Hval', Hval. f_equal. lia.
  - destruct (Py.zeros _); [done|by rewrite str_app_cons].
Qed.

Lemma length_format_0d w (k : Z) :
  0 <= k < 10 ^ Z.of_nat w -> w <> O -> String.length (Py.format_0d w k) = w.
Proof.
  intros Hk Hw. unfold Py.format_0d.
  destruct (k <? 0) eqn:Hneg; [apply Z.ltb_lt in Hneg; lia|].
  destruct (str_N_spec (Z.to_N k)) as (Hne & Hall & Hval & Hub & Hlb).
  destruct (zfill_spec w _ Hall) as (_ & _ & ->).
  enough (String.length (Py.str_N (Z.to_N k)) <= w)%nat by lia.
  destruct Hlb as [->|Hlb]; [lia|].
  destruct (decide (String.length (Py.str_N (Z.to_N k)) <= w)%nat) as [|Hgt]; [done|].
  exfalso.
  assert (10 ^ Z.of_nat w <= 10 ^ (Z.of_nat (String.length (Py.str_N (Z.to_N k))) - 1)).
  { apply Z.pow_le_mono_r; lia. }
  lia.
Qed.

Lemma all_digits_format_0d w (k : Z) :
  0 <= k -> all_digits (Py.format_0d w k) = true.
Proof.
  intros Hk. unfold Py.format_0d.
  destruct (k <? 0) eqn:Hneg; [apply Z.ltb_lt in Hneg; lia|].
  destruct (str_N_spec (Z.to_N k)) as (_ & Hall & _).
  by destruct (zfill_spec w _ Hall) as (? & _).
Qed.

End Numerals.

(** ** The segment after the last separator *)

Section Split.

Implicit Types (s seg body : string) (sep c : ascii).

Lemma split_no_sep sep s : has_char sep s = false -> Py.split sep s = [s].
Proof.
  induction s as [|c s IH]; [done|]. simpl.
  intros [Hc Hs]%orb_false_iff. rewrite Hc. by rewrite (IH Hs).
Qed.

Lemma split_app_sep sep body seg :
  has_char sep seg = false ->
  exists first rest,
    Py.split sep (body +:+ String sep seg) = first :: rest /\ last rest = Some seg.
Proof.
  intros Hseg. induction body as [|c body (first & rest & Heq & Hlast)].
  - exists "", [seg]. rewrite str_app_nil_l. simpl. by rewrite Ascii.eqb_refl, (split_no_sep _ _ Hseg).
  - rewrite str_app_cons. simpl. rewrite Heq. destruct (Ascii.eqb c sep).
    + exists "", (first :: rest). split; [done|].
      destruct rest; [done|]. by rewrite last_cons, Hlast.
    + by exists (String c first), rest.
Qed.

(** [s.split(sep)[-1]] is the text after the last [sep]. *)
Lemma split_last_app sep body seg :
  has_char sep seg = false ->
  last (Py.split sep (body +:+ String sep seg)) = Some seg.
Proof.
  intros Hseg. destruct (split_app_sep sep body seg Hseg) as (first & rest & -> & Hlast).
  destruct rest; [done|]. by rewrite last_cons, Hlast.
Qed.

(** Every text has such a last segment: all of it, or what follows its
    last separator. *)
Lemma split_last_total sep s :
  exists seg,
    last (Py.split sep s) = Some seg /\ has_char sep seg = false
    /\ (s = seg \/ exists body, s = body +:+ String sep seg).
Proof.
  induction s as [|c s (seg & Hlast & Hseg & Hshape)].
  - exists "". by repeat split; [..|left].
  - simpl. destruct (Ascii.eqb c sep) eqn:Hc.
    + apply Ascii.eqb_eq in Hc as ->. exists seg.
      destruct (Py.split sep s) as [|first rest] eqn:Hsplit; [done|].
      rewrite last_cons, Hlast. repeat split; [done|]. right.
      destruct Hshape as [->|[body ->]]; [by exists ""|by exists (String sep body)].
    + destruct (Py.split sep s) as [|first rest] eqn:Hsplit; [done|].
      destruct rest as [|second rest].
      * injection Hlast as <-.
        assert (s = first) as ->.
        { destruct Hshape as [?|[body ->]]; [done|].
          destruct (split_app_sep sep body first Hseg) as (? & ? & Heq & Hl).
          rewrite Heq in Hsplit. injection Hsplit as _ ->. done. }
        exists (String c first). simpl. rewrite Hc, Hseg. by repeat split; [..|left].
      * exists seg. rewrite last_cons_cons. rewrite last_cons_cons in Hlast.
        repeat split; [done..|]. right.
        destruct Hshape as [->|[body ->]].
        -- rewrite (split_no_sep _ _ Hseg) in Hsplit. done.
        -- by exists (String c body).
Qed.

Lemma startswith_has_char sep p s t :
  Py.startswith s (p +:+ String sep t) = true -> has_char sep s = true.
Proof.
  intros [u ->]%startswith_spec. rewrite str_app_assoc, str_app_cons.
  induction p as [|c p IH].
  - rewrite str_app_nil_l. simpl. by rewrite Ascii.eqb_refl.
  - rewrite str_app_cons. simpl. rewrite IH. apply orb_true_r.
Qed.

Lemma str_app_inj_length (p q s t : string) :
  String.length s = String.length t -> p +:+ s = q +:+ t -> p = q /\ s = t.
Proof.
  revert q. induction p as [|a p IH]; intros [|b q] Hlen Heq.
  - done.
  - exfalso. apply (f_equal String.length) in Heq.
    rewrite !str_length_app in Heq. simpl in Heq. lia.
  - exfalso. apply (f_equal String.length) in Heq.
    rewrite !str_length_app in Heq. simpl in Heq. lia.
  - rewrite !str_app_cons in Heq. injection Heq as -> Heq.
    destruct (IH q Hlen Heq) as [-> ->]. done.
Qed.

End Split.

(** [last_serial_of] on an identifier that ends with a dash and a segment
    without dashes reads that segment. *)
Lemma last_serial_of_app body serial :
  has_char "-" serial = false ->
  last_serial_of (body +:+ "-" +:+ serial) = Py.int serial.
Proof.
  intros Hserial. unfold last_serial_of. run_result.
  change ("-" +:+ serial) with (String "-"%char serial).
  by rewrite (split_last_app "-" body serial Hserial).
Qed.

(** C1, amended. With at least two rows, when the last row's identifier
    starts with the current [{prefix}-{MM}{YY}] and the segment after its
    last dash reads as the integer [last_serial], the result is [{prefix}-{MM}{YY}-{S}] where [S] is
    the numeral of [last_serial + 1] padded with zeros to three digits: [S]
    consists of digits, reads back as [last_serial + 1], and has exactly three
    of them while the number stays below 1000. *)
Theorem allocate_increments
    today (cached_values : snapshot) prefix last_row body serial last_serial :
  (2 <= length cached_values)%nat ->
  last cached_values = Some last_row ->
  last_row !! 1%nat = Some (body +:+ "-" +:+ serial) ->
  has_char "-" serial = false ->
  Py.startswith (body +:+ "-" +:+ serial)
    (prefix +:+ "-" +:+ strftime_m today +:+ strftime_y today) = true ->
  Py.int serial = Ok last_serial ->
  generate_record_id today cached_values prefix =
    Ok (prefix +:+ "-" +:+ strftime_m today +:+ strftime_y today +:+ "-"
        +:+ Py.format_0d 3 (last_serial + 1))
  /\ all_digits (Py.format_0d 3 (last_serial + 1)) = true
  /\ Py.int (Py.format_0d 3 (last_serial + 1)) = Ok (last_serial + 1)
  /\ (last_serial + 1 < 1000 -> String.length (Py.format_0d 3 (last_serial + 1)) = 3%nat).
Proof.
  intros Hlen Hlast Hid Hserial Hstart Hint.
  pose proof (int_nonneg _ _ Hserial Hint) as Hpos.
  split; [|split; [|split]].
  - rewrite (generate_record_id_last _ _ _ _ Hlen Hlast), Hid. simpl.
    fold (id_head today prefix) in Hstart. rewrite Hstart.
    rewrite (last_serial_of_app _ _ Hserial), Hint. by rewrite id_head_eq.
  - apply all_digits_format_0d. lia.
  - apply int_format_0d. lia.
  - intros Hlt. apply length_format_0d; [|done]. change (10 ^ Z.of_nat 3) with 1000. lia.
Qed.

Lemma allocate_increments_witness :
  generate_record_id march_2025
    [complaints_header; complaint_row "C-0325-041" "alice"] "C" = Ok "C-0325-042"
  /\ all_digits "042" = true
  /\ Py.int "042" = Ok 42
  /\ (41 + 1 < 1000 -> String.length "042" = 3%nat).
Proof.
  apply (allocate_increments march_2025
           [complaints_header; complaint_row "C-0325-041" "alice"] "C"
           (complaint_row "C-0325-041" "alice") "C-0325" "041" 41);
    [simpl; lia | reflexivity | reflexivity | reflexivity | reflexivity | reflexivity].
Defined.

(** A single row is taken for the header, whatever it holds: its identifier
    matches the current prefix, month and year and ends in the serial 41,
    and yet the result is serial 001, not 042. *)
Lemma allocate_one_row_ignores_serial :
  last [complaint_row "C-0325-041" "alice"] = Some (complaint_row "C-0325-041" "alice")
  /\ complaint_row "C-0325-041" "alice" !! 1%nat = Some "C-0325-041"
  /\ Py.startswith "C-0325-041"
       ("C" +:+ "-" +:+ strftime_m march_2025 +:+ strftime_y march_2025) = true
  /\ last_serial_of "C-0325-041" = Ok 41
  /\ generate_record_id march_2025 [complaint_row "C-0325-041" "alice"] "C"
     = Ok "C-0325-001".
Proof. repeat split. Qed.

(** ** The identifier format and its overflow *)

Lemma format_tail_shape s :
  format_tail s = true ->
  exists front s1 s2 s3 rest,
    s = front +:+ String "-" (String s1 (String s2 (String s3 rest)))
    /\ (rest = "" \/ rest = String "010" "").
Proof.
  destruct s as [|d1 [|m1 [|m2 [|y1 [|y2 [|d2 [|s1 [|s2 [|s3 rest]]]]]]]]]; try done.
  simpl. rewrite !andb_true_iff.
  intros [[[[[[[[[Hd1 _] _] _] _] Hd2] _] _] _] Hend].
  apply Ascii.eqb_eq in Hd2 as ->.
  exists (String d1 (String m1 (String m2 (String y1 (String y2 ""))))), s1, s2, s3, rest.
  split; [done|].
  destruct rest as [|c [|? ?]]; [by left| |done].
  right. simpl in Hend. by apply Ascii.eqb_eq in Hend as ->.
Qed.

Lemma record_id_format_shape s :
  record_id_format s = true ->
  exists front s1 s2 s3 rest,
    s = front +:+ String "-" (String s1 (String s2 (String s3 rest)))
    /\ (rest = "" \/ rest = String "010" "").
Proof.
  destruct s as [|p1 r]; [done|]. unfold record_id_format.
  intros [_ [Htail|Htail]%orb_true_iff]%andb_true_iff.
  - destruct (format_tail_shape r Htail) as (front & s1 & s2 & s3 & rest & -> & Hrest).
    by exists (String p1 front), s1, s2, s3, rest.
  - destruct r as [|p2 r']; [done|]. apply andb_true_iff in Htail as [_ Htail].
    destruct (format_tail_shape r' Htail) as (front & s1 & s2 & s3 & rest & -> & Hrest).
    by exists (String p1 (String p2 front)), s1, s2, s3, rest.
Qed.

(** No text that ends in a dash and four digits has the format. *)
Lemma four_digit_serial_breaks_format head :
  record_id_format (head +:+ "-" +:+ "1000") = false.
Proof.
  destruct (record_id_format (head +:+ "-" +:+ "1000")) eqn:Hfmt; [|done].
  exfalso.
  destruct (record_id_format_shape _ Hfmt) as (front & s1 & s2 & s3 & rest & Heq & [->| ->]).
  - rewrite <- (str_app_assoc head) in Heq.
    apply str_app_inj_length in Heq as [_ Heq]; [|done].
    change "1000" with (String "1" "000") in Heq. congruence.
  - apply str_app_inj_length in Heq as [_ Heq]; [|done].
    change ("-" +:+ "1000") with (String "-" (String "1" (String "0" (String "0" (String "0" ""))))) in Heq.
    congruence.
Qed.

(** C4, amended. With at least two rows, when the last row's identifier
    starts with the current [{prefix}-{MM}{YY}] and its trailing segment
    reads as 999, the result is
    [{prefix}-{MM}{YY}-1000]: a serial of four digits, which the format
    [^[A-Z]{1,2}-\d{4}-\d{3}$] does not admit. *)
Theorem allocate_overflows_at_999
    today (cached_values : snapshot) prefix last_row body serial :
  (2 <= length cached_values)%nat ->
  last cached_values = Some last_row ->
  last_row !! 1%nat = Some (body +:+ "-" +:+ serial) ->
  has_char "-" serial = false ->
  Py.startswith (body +:+ "-" +:+ serial)
    (prefix +:+ "-" +:+ strftime_m today +:+ strftime_y today) = true ->
  Py.int serial = Ok 999 ->
  generate_record_id today cached_values prefix =
    Ok (prefix +:+ "-" +:+ strftime_m today +:+ strftime_y today +:+ "-" +:+ "1000")
  /\ record_id_format
       (prefix +:+ "-" +:+ strftime_m today +:+ strftime_y today +:+ "-" +:+ "1000") = false.
Proof.
  intros Hlen Hlast Hid Hserial Hstart Hint. split.
  - rewrite (generate_record_id_last _ _ _ _ Hlen Hlast), Hid. simpl.
    fold (id_head today prefix) in Hstart. rewrite Hstart.
    rewrite (last_serial_of_app _ _ Hserial), Hint. by rewrite id_head_eq.
  - rewrite <- id_head_eq. apply four_digit_serial_breaks_format.
Qed.

Lemma allocate_overflows_at_999_witness :
  generate_record_id march_2025
    [complaints_header; complaint_row "C-0325-999" "alice"] "C" = Ok "C-0325-1000"
  /\ record_id_format "C-0325-1000" = false.
Proof.
  apply (allocate_overflows_at_999 march_2025
           [complaints_header; complaint_row "C-0325-999" "alice"] "C"
           (complaint_row "C-0325-999" "alice") "C-0325" "999");
    [simpl; lia | reflexivity | reflexivity | reflexivity | reflexivity | reflexivity].
Defined.

(** On a single row whose identifier matches and ends in 999 the early
    return answers 001, an identifier within the format: no overflow. *)
Lemma allocate_one_row_at_999 :
  last [complaint_row "C-0325-999" "alice"] = Some (complaint_row "C-0325-999" "alice")
  /\ complaint_row "C-0325-999" "alice" !! 1%nat = Some "C-0325-999"
  /\ Py.startswith "C-0325-999"
       ("C" +:+ "-" +:+ strftime_m march_2025 +:+ strftime_y march_2025) = true
  /\ last_serial_of "C-0325-999" = Ok 999
  /\ generate_record_id march_2025 [complaint_row "C-0325-999" "alice"] "C"
     = Ok "C-0325-001"
  /\ record_id_format "C-0325-001" = true.
Proof. repeat split. Qed.

(** ** Partiality *)

Lemma int_raises_value_error s e : Py.int s = Raise e -> e = ValueError.
Proof. unfold Py.int. destruct (Py.int_signed (Py.lstrip s)); [done|]. by intros [= <-]. Qed.

Lemma last_is_Some {A : Type} (l : list A) : (0 < length l)%nat -> is_Some (last l).
Proof.
  destruct l as [|x l] using rev_ind; simpl; [lia|]. intros _. rewrite last_snoc. by eexists.
Qed.

(** C9. [generate_record_id] is partial.  It raises on the snapshot whose
    last identifier is [C-0325-abc], and in general it raises exactly when
    there are at least two rows, the last identifier starts with the current
    [{prefix}-{MM}{YY}], and the segment after its last dash is not a numeral
    for [int]; the exception is then [ValueError].  So the allocation is
    total only on snapshots whose matching last identifier ends in a
    numeral. *)
Theorem allocate_partial :
  generate_record_id march_2025
    [complaints_header; complaint_row "C-0325-abc" "alice"] "C" = Raise ValueError
  /\ forall today (cached_values : snapshot) prefix e,
       generate_record_id today cached_values prefix = Raise e
       <-> e = ValueError
           /\ exists last_row body serial,
                (2 <= length cached_values)%nat
                /\ last cached_values = Some last_row
                /\ last_row !! 1%nat = Some (body +:+ "-" +:+ serial)
                /\ has_char "-" serial = false
                /\ Py.startswith (body +:+ "-" +:+ serial)
                     (prefix +:+ "-" +:+ strftime_m today +:+ strftime_y today) = true
                /\ Py.int serial = Raise ValueError.
Proof.
  split; [reflexivity|]. intros today cached_values prefix e. split.
  - intros Hraise.
    destruct (decide (length cached_values < 2)%nat) as [Hshort|Hlong].
    { by rewrite (generate_record_id_short _ _ _ Hshort) in Hraise. }
    assert (2 <= length cached_values)%nat as Hlen by lia.
    destruct (last_is_Some cached_values ltac:(lia)) as [last_row Hlast].
    rewrite (generate_record_id_last _ _ _ last_row Hlen Hlast) in Hraise.
    simpl in Hraise.
    destruct (Py.startswith (default "" (last_row !! 1%nat)) (id_head today prefix))
      eqn:Hstart; [|done].
    destruct (last_row !! 1%nat) as [last_id|] eqn:Hid; simpl in *.
    2:{ apply startswith_nil in Hstart. by apply id_head_not_nil in Hstart. }
    destruct (split_last_total "-" last_id) as (seg & Hseg & Hdash & Hshape).
    unfold last_serial_of in Hraise. revert Hraise. run_result. rewrite Hseg.
    destruct (Py.int seg) as [k|e'] eqn:Hint; [done|]. intros [= ->].
    apply int_raises_value_error in Hint as Hv. subst e. split; [done|].
    destruct Hshape as [->|[body ->]].
    { unfold id_head in Hstart. apply startswith_has_char in Hstart. congruence. }
    by exists last_row, body, seg.
  - intros [-> (last_row & body & serial & Hlen & Hlast & Hid & Hdash & Hstart & Hint)].
    rewrite (generate_record_id_last _ _ _ _ Hlen Hlast), Hid. simpl.
    fold (id_head today prefix) in Hstart. rewrite Hstart.
    by rewrite (last_serial_of_app _ _ Hdash), Hint.
Qed.

(** ** The submitter's own records *)

Lemma user_records_filter (data : snapshot) user_name :
  user_records data user_name = filter (names_submitter user_name) (drop 1 data).
Proof.
  unfold user_records. apply list_filter_iff. intros r.
  unfold names_submitter, same_ignoring_case.
  rewrite list_elem_of_fmap, Exists_exists.
  split; intros (cell & ? & ?); by exists cell.
Qed.

(** The comprehension alone never raises, whatever the snapshot. *)
Lemma user_records_nil user_name : user_records [] user_name = [].
Proof. reflexivity. Qed.

Lemma lower_idemp s : Py.lower (Py.lower s) = Py.lower s.
Proof.
  induction s as [|c s IH]; [done|]. simpl. rewrite IH. f_equal.
  destruct c as [[] [] [] [] [] [] [] []]; by vm_compute.
Qed.

Example lower_mixed_case : Py.lower "aLICE Q. Example" = Py.lower "Alice q. EXAMPLE".
Proof. reflexivity. Qed.

(** The tab cannot be drawn for a sheet without any row: the header is read
    before the rows are filtered. *)
Lemma my_submissions_of_empty_sheet :
  my_submissions "Complaints" [] "alice" = Raise IndexError.
Proof. reflexivity. Qed.

(** With its header row in place the tab raises nothing: the records shown
    are the rows below the header in which some whole cell equals the name up
    to case, in their order, and when no row matches the tab shows the
    notice instead of a table. *)
Theorem my_submissions_of_sheet name headers (rest : snapshot) user_name :
  user_records (headers :: rest) user_name = filter (names_submitter user_name) rest
  /\ (forall r : row,
        r ∈ user_records (headers :: rest) user_name
        <-> r ∈ rest /\ exists cell, cell ∈ r /\ Py.lower user_name = Py.lower cell)
  /\ ((forall r : row, r ∈ rest -> ~ names_submitter user_name r)
      -> user_records (headers :: rest) user_name = [])
  /\ my_submissions name (headers :: rest) user_name =
       Ok (match user_records (headers :: rest) user_name with
           | [] => Info name
           | records => Table (headers :: records)
           end).
Proof.
  rewrite user_records_filter. change (drop 1 (headers :: rest)) with rest.
  split; [done|split; [|split]].
  - intros r. rewrite list_elem_of_filter. unfold names_submitter, same_ignoring_case.
    rewrite Exists_exists. tauto.
  - intros Hnone. induction rest as [|r rest IH]; [done|].
    rewrite filter_cons_False by (apply Hnone; left).
    apply IH. intros r' Hr'. apply Hnone. by right.
  - unfold my_submissions. run_result. simpl. rewrite user_records_filter.
    change (drop 1 (headers :: rest)) with rest.
    by destruct (filter _ rest).
Qed.


(** ** Submitting a complaint *)

Lemma truthy_false s : truthy s = false <-> s = "".
Proof. by destruct s. Qed.

(** C7. Whatever Drive and Sheets do, the handler answers with the
    required-fields error and leaves sheets and Drive as they were exactly
    when the product, the details or the contact number is empty.  The error
    never comes with a change of the store, and the choice in the severity
    box, even an empty one, has no part in it. *)
Theorem submit_complaint_validation
    drive_create sheet_accepts now user_name complaint_id form w :
  (submit_complaint drive_create sheet_accepts now user_name complaint_id form w
     = (Ok ValidationError, w)
   <-> product form = "" \/ details form = "" \/ contact_number form = "")
  /\ (fst (submit_complaint drive_create sheet_accepts now user_name complaint_id form w)
       = Ok ValidationError
      <-> product form = "" \/ details form = "" \/ contact_number form = "")
  /\ (forall sev,
        fst (submit_complaint drive_create sheet_accepts now user_name complaint_id
               (with_severity sev form) w) = Ok ValidationError
        <-> fst (submit_complaint drive_create sheet_accepts now user_name complaint_id
                   form w) = Ok ValidationError).
Proof.
  assert (forall f,
    fst (submit_complaint drive_create sheet_accepts now user_name complaint_id f w)
      = Ok ValidationError
    <-> product f = "" \/ details f = "" \/ contact_number f = "") as Hfst.
  { intros f. unfold submit_complaint.
    destruct (product f) as [|? ?], (details f) as [|? ?], (contact_number f) as [|? ?];
      simpl; try (split; [intros _|intros _; reflexivity]; auto; fail).
    split; [|intros [|[|]]; done].
    unfold upload_to_drive, append_row.
    destruct (attachment f); [destruct (drive_create _ _)|]; simpl;
      repeat match goal with
             | |- context [match ?x with _ => _ end] => destruct x; simpl
             end; done. }
  split; [|split].
  - split.
    + intros H. apply Hfst. by rewrite H.
    + intros H. unfold submit_complaint.
      destruct (truthy (product form) && truthy (details form)
                && truthy (contact_number form)) eqn:Hall; [|done].
      apply andb_true_iff in Hall as [[H1 H2]%andb_true_iff H3].
      destruct H as [H|[H|H]]; rewrite H in *; done.
  - apply Hfst.
  - intros sev. rewrite !Hfst. done.
Qed.

(** ** Serials in sequence *)

Lemma all_digits_no_dash s : all_digits s = true -> has_char "-" s = false.
Proof.
  induction s as [|c s IH]; [done|]. simpl.
  intros [Hc Hs]%andb_true_iff. rewrite (IH Hs).
  destruct (digit_plain c Hc) as (_ & _ & -> & _). done.
Qed.

(** Every identifier handed out is the current head, a dash and the padded
    numeral of a serial that is at least 1. *)
Lemma generate_record_id_shape today (cached_values : snapshot) prefix id :
  generate_record_id today cached_values prefix = Ok id ->
  exists n, 1 <= n /\ id = id_head today prefix +:+ "-" +:+ Py.format_0d 3 n.
Proof.
  intros Hid. destruct (decide (length cached_values < 2)%nat) as [Hshort|Hlong].
  { rewrite (generate_record_id_short _ _ _ Hshort) in Hid. injection Hid as <-.
    by exists 1. }
  assert (2 <= length cached_values)%nat as Hlen by lia.
  destruct (last_is_Some cached_values ltac:(lia)) as [last_row Hlast].
  rewrite (generate_record_id_last _ _ _ last_row Hlen Hlast) in Hid. simpl in Hid.
  destruct (Py.startswith _ _); [|injection Hid as <-; by exists 1].
  destruct (last_serial_of _) as [k|] eqn:Hk; [|done]. injection Hid as <-.
  exists (k + 1). split; [|done].
  unfold last_serial_of in Hk. revert Hk. run_result.
  destruct (split_last_total "-" (default "" (last_row !! 1%nat))) as (seg & -> & Hdash & _).
  intros Hint. pose proof (int_nonneg _ _ Hdash Hint). lia.
Qed.

(** Once the allocated identifier is the last row of a sheet that has its
    header, the next allocation in the same month continues with the next
    serial. *)
Lemma generate_record_id_next today (cached_values : snapshot) prefix id stamp fields :
  cached_values <> [] ->
  generate_record_id today cached_values prefix = Ok id ->
  exists n,
    1 <= n
    /\ id = id_head today prefix +:+ "-" +:+ Py.format_0d 3 n
    /\ generate_record_id today (cached_values ++ [stamp :: id :: fields]) prefix
       = Ok (id_head today prefix +:+ "-" +:+ Py.format_0d 3 (n + 1)).
Proof.
  intros Hrows Hid.
  destruct (generate_record_id_shape _ _ _ _ Hid) as (n & Hn & ->).
  exists n. repeat split; [done|].
  rewrite (generate_record_id_last _ _ _
             (stamp :: (id_head today prefix +:+ "-" +:+ Py.format_0d 3 n) :: fields)).
  - simpl. rewrite startswith_app, last_serial_of_app.
    + by rewrite int_format_0d by lia.
    + apply all_digits_no_dash, all_digits_format_0d. lia.
  - rewrite length_app. destruct cached_values; [done|]. simpl. lia.
  - apply last_snoc.
Qed.

(** ** Identifiers within the format *)

Lemma digits_of_length_2 s :
  String.length s = 2%nat -> all_digits s = true ->
  exists a b, s = String a (String b "") /\ is_digit a = true /\ is_digit b = true.
Proof.
  destruct s as [|a [|b [|? ?]]]; try done. simpl.
  intros _ [Ha [Hb _]%andb_true_iff]%andb_true_iff. by exists a, b.
Qed.

Lemma digits_of_length_3 s :
  String.length s = 3%nat -> all_digits s = true ->
  exists a b c,
    s = String a (String b (String c ""))
    /\ is_digit a = true /\ is_digit b = true /\ is_digit c = true.
Proof.
  destruct s as [|a [|b [|c [|? ?]]]]; try done. simpl.
  intros _ [Ha [Hb [Hc _]%andb_true_iff]%andb_true_iff]%andb_true_iff. by exists a, b, c.
Qed.

(** With a prefix of one or two capitals, a month below 100 and a serial
    below 1000 the composed identifier has the format; the overflow at 1000
    is the first serial that leaves it. *)
Lemma composed_id_in_format today p1 p2 n :
  is_upper p1 = true ->
  p2 = "" \/ (exists c, p2 = String c "" /\ is_upper c = true) ->
  (month today < 100)%nat ->
  0 <= n < 1000 ->
  record_id_format (id_head today (String p1 p2) +:+ "-" +:+ Py.format_0d 3 n) = true.
Proof.
  intros Hp1 Hp2 Hmonth Hn. unfold id_head, strftime_m, strftime_y.
  destruct (digits_of_length_2 (Py.format_0d 2 (Z.of_nat (month today))))
    as (m1 & m2 & -> & Hm1 & Hm2).
  { apply length_format_0d; [|done]. change (10 ^ Z.of_nat 2) with 100. lia. }
  { apply all_digits_format_0d. lia. }
  pose proof (Nat.mod_upper_bound (year today) 100 ltac:(done)) as Hyear.
  destruct (digits_of_length_2 (Py.format_0d 2 (Z.of_nat (year today mod 100))))
    as (y1 & y2 & -> & Hy1 & Hy2).
  { apply length_format_0d; [|done]. change (10 ^ Z.of_nat 2) with 100. lia. }
  { apply all_digits_format_0d. lia. }
  destruct (digits_of_length_3 (Py.format_0d 3 n)) as (s1 & s2 & s3 & -> & Hs1 & Hs2 & Hs3).
  { apply length_format_0d; [|done]. by change (10 ^ Z.of_nat 3) with 1000. }
  { apply all_digits_format_0d. lia. }
  destruct Hp2 as [->|(c & -> & Hc)]; unfold String.append; simpl;
    rewrite ?Hp1, ?Hc, ?Hm1, ?Hm2, ?Hy1, ?Hy2, ?Hs1, ?Hs2, ?Hs3; simpl.
  - done.
  - by rewrite orb_true_r.
Qed.

(** ** The handler on its success path, and the acceptance scenario *)

Lemma submit_complaint_registers
    drive_create sheet_accepts now user_name complaint_id form w rows :
  product form <> "" -> details form <> "" -> contact_number form <> "" ->
  attachment form = None ->
  sheets w !! "Complaints" = Some rows ->
  sheet_accepts rows
    [strftime_stamp now; complaint_id; product form; severity form;
     contact_number form; details form; user_name; ""] = true ->
  exists w',
    submit_complaint drive_create sheet_accepts now user_name complaint_id form w
      = (Ok (Registered complaint_id ""), w')
    /\ drive w' = drive w
    /\ exists new_data,
         sheets w' = <["Complaints" := rows ++ [new_data]]> (sheets w)
         /\ new_data !! 1%nat = Some complaint_id
         /\ new_data !! 6%nat = Some user_name.
Proof.
  intros Hp Hd Hc Hatt Hrows Hacc. unfold submit_complaint, append_row.
  destruct (product form); [done|]. destruct (details form); [done|].
  destruct (contact_number form); [done|]. simpl.
  rewrite Hatt. simpl. rewrite Hrows, Hacc.
  eexists. split; [done|]. split; [done|]. by eexists.
Qed.

(** Empty complaints store: a first complaint in March 2025 is [C-0325-001],
    a second one the same month [C-0325-002], a third in April 2025
    [C-0425-001]; each allocation reads the sheet afresh. *)
Example three_complaints :
  let tab today w :=
    complaints_tab drive_up sheet_up today (complaints_of w) "alice" aspirin w in
  let '(first, w1) := tab march_2025 empty_store in
  let '(second, w2) := tab march_2025 w1 in
  let '(third, w3) := tab april_2025 w2 in
  first = Ok (Registered "C-0325-001" "")
  /\ second = Ok (Registered "C-0325-002" "")
  /\ third = Ok (Registered "C-0425-001" "")
  /\ length (complaints_of w3) = 4%nat.
Proof. by vm_compute. Qed.

(** Two submissions that allocate from the same stale snapshot are given the
    same identifier, and both rows are appended. *)
Example stale_snapshot_duplicates :
  let stale := complaints_of empty_store in
  let '(first, w1) :=
    complaints_tab drive_up sheet_up march_2025 stale "alice" aspirin empty_store in
  let '(second, w2) :=
    complaints_tab drive_up sheet_up march_2025 stale "bob" aspirin w1 in
  first = second /\ length (complaints_of w2) = 3%nat.
Proof. by vm_compute. Qed.

(** No rollback: when the append fails after the upload, the exception is
    not the required-fields error, the sheet is as before and the uploaded
    file stays in Drive. *)
Example failed_append_orphans_upload :
  let '(shown, w1) :=
    submit_complaint drive_up sheet_down march_2025 "alice" "C-0325-001"
      aspirin_with_photo empty_store in
  shown = Raise APIError
  /\ complaints_of w1 = complaints_of empty_store
  /\ drive_name <$> drive w1 = ["C-0325-001_seal.png"].
Proof. by vm_compute. Qed.

Example failed_upload_changes_nothing :
  submit_complaint drive_down sheet_up march_2025 "alice" "C-0325-001"
    aspirin_with_photo empty_store = (Raise HttpError, empty_store).
Proof. reflexivity. Qed.

(** * Further properties of the allocator *)

Lemma length_format_0d_ge w (k : Z) :
  0 <= k -> (w <= String.length (Py.format_0d w k))%nat.
Proof.
  intros Hk. unfold Py.format_0d.
  destruct (k <? 0) eqn:Hneg; [apply Z.ltb_lt in Hneg; lia|].
  destruct (str_N_spec (Z.to_N k)) as (_ & Hall & _).
  destruct (zfill_spec w _ Hall) as (_ & _ & ->). lia.
Qed.

Lemma length_format_0d_long (k : Z) :
  1000 <= k -> (4 <= String.length (Py.format_0d 3 k))%nat.
Proof.
  intros Hk. unfold Py.format_0d.
  destruct (k <? 0) eqn:Hneg; [apply Z.ltb_lt in Hneg; lia|].
  destruct (str_N_spec (Z.to_N k)) as (_ & Hall & _ & Hub & _).
  destruct (zfill_spec 3 _ Hall) as (_ & _ & ->).
  enough (4 <= String.length (Py.str_N (Z.to_N k)))%nat by lia.
  destruct (decide (4 <= String.length (Py.str_N (Z.to_N k)))%nat) as [|Hshort]; [done|].
  exfalso.
  assert (10 ^ Z.of_nat (String.length (Py.str_N (Z.to_N k))) <= 10 ^ 3).
  { apply Z.pow_le_mono_r; lia. }
  change (10 ^ 3) with 1000 in *. lia.
Qed.

(** A text of at least [k] characters ends in a text of exactly [k]. *)
Lemma str_take_last (k : nat) s :
  (k <= String.length s)%nat ->
  exists front back, s = front +:+ back /\ String.length back = k.
Proof.
  induction s as [|c s IH]; intros Hk.
  - exists "", "". simpl in *. split; [done|lia].
  - destruct (decide (k <= String.length s)%nat) as [Hle|Hgt].
    + destruct (IH Hle) as (front & back & -> & Hlen). by exists (String c front), back.
    + exists "", (String c s). simpl in *. split; [done|lia].
Qed.

Lemma all_digits_first c s : all_digits (String c s) = true -> c <> "-"%char.
Proof.
  simpl. intros [Hc _]%andb_true_iff. by destruct (digit_plain c Hc) as (_ & _ & _ & _ & ?).
Qed.

(** A serial of four digits or more takes a text out of the format. *)
Lemma long_serial_breaks_format head ds :
  all_digits ds = true -> (4 <= String.length ds)%nat ->
  record_id_format (head +:+ "-" +:+ ds) = false.
Proof.
  intros Hds Hlen.
  destruct (record_id_format (head +:+ "-" +:+ ds)) eqn:Hfmt; [|done]. exfalso.
  destruct (record_id_format_shape _ Hfmt) as (front & s1 & s2 & s3 & rest & Heq & [->| ->]).
  - destruct (str_take_last 4 ds Hlen) as (ds1 & ds2 & -> & Hlen2).
    rewrite all_digits_app in Hds. apply andb_true_iff in Hds as [_ Hds2].
    rewrite <- !str_app_assoc in Heq.
    apply str_app_inj_length in Heq as [_ ->]; [|done].
    by apply all_digits_first in Hds2.
  - destruct (str_take_last 1 ds ltac:(lia)) as (ds1 & ds2 & -> & Hlen2).
    rewrite all_digits_app in Hds. apply andb_true_iff in Hds as [_ Hds2].
    rewrite <- !str_app_assoc in Heq.
    change (String "-" (String s1 (String s2 (String s3 (String "010" "")))))
      with (String "-" (String s1 (String s2 (String s3 ""))) +:+ String "010" "") in Heq.
    rewrite <- (str_app_assoc front) in Heq.
    apply str_app_inj_length in Heq as [_ ->]; [|done]. done.
Qed.

(** X1. Every identifier the allocator returns is the current
    [{prefix}-{MM}{YY}], a dash, and a numeral of at least three digits that
    reads as a serial of at least 1. *)
Theorem allocated_id_shape today (cached_values : snapshot) prefix id :
  generate_record_id today cached_values prefix = Ok id ->
  exists n,
    1 <= n
    /\ id = prefix +:+ "-" +:+ strftime_m today +:+ strftime_y today +:+ "-"
            +:+ Py.format_0d 3 n
    /\ all_digits (Py.format_0d 3 n) = true
    /\ Py.int (Py.format_0d 3 n) = Ok n
    /\ (3 <= String.length (Py.format_0d 3 n))%nat.
Proof.
  intros Hid. destruct (generate_record_id_shape _ _ _ _ Hid) as (n & Hn & ->).
  exists n. split; [done|]. split; [by rewrite id_head_eq|].
  split; [apply all_digits_format_0d; lia|].
  split; [apply int_format_0d; lia|apply length_format_0d_ge; lia].
Qed.

Lemma allocated_id_shape_witness :
  exists n,
    1 <= n
    /\ "D-0425-001" = "D" +:+ "-" +:+ strftime_m april_2025 +:+ strftime_y april_2025 +:+ "-"
                      +:+ Py.format_0d 3 n
    /\ all_digits (Py.format_0d 3 n) = true
    /\ Py.int (Py.format_0d 3 n) = Ok n
    /\ (3 <= String.length (Py.format_0d 3 n))%nat.
Proof.
  apply (allocated_id_shape april_2025 [complaints_header] "D" "D-0425-001"). reflexivity.
Defined.

(** X2. For a prefix of one or two capital letters, the returned identifier
    has the format [^[A-Z]{1,2}-\d{4}-\d{3}$] exactly when its serial is
    below 1000. *)
Theorem allocated_id_in_format_iff today (cached_values : snapshot) p1 p2 id :
  is_upper p1 = true ->
  p2 = "" \/ (exists c, p2 = String c "" /\ is_upper c = true) ->
  (month today < 100)%nat ->
  generate_record_id today cached_values (String p1 p2) = Ok id ->
  exists n,
    1 <= n
    /\ id = String p1 p2 +:+ "-" +:+ strftime_m today +:+ strftime_y today +:+ "-"
            +:+ Py.format_0d 3 n
    /\ (record_id_format id = true <-> n < 1000).
Proof.
  intros Hp1 Hp2 Hmonth Hid.
  destruct (generate_record_id_shape _ _ _ _ Hid) as (n & Hn & ->).
  exists n. split; [done|]. split; [by rewrite id_head_eq|].
  destruct (decide (n < 1000)) as [Hlt|Hge].
  - rewrite composed_id_in_format by (done || lia). done.
  - rewrite long_serial_breaks_format.
    + split; [done|lia].
    + apply all_digits_format_0d. lia.
    + apply length_format_0d_long. lia.
Qed.

Lemma allocated_id_in_format_iff_witness :
  exists n,
    1 <= n
    /\ "CC-0325-1000" = "CC" +:+ "-" +:+ strftime_m march_2025 +:+ strftime_y march_2025
                        +:+ "-" +:+ Py.format_0d 3 n
    /\ (record_id_format "CC-0325-1000" = true <-> n < 1000).
Proof.
  apply (allocated_id_in_format_iff march_2025
           [complaints_header; complaint_row "CC-0325-999" "alice"] "C"%char "C" "CC-0325-1000");
    [reflexivity | right; exists "C"%char; split; reflexivity | simpl; lia | reflexivity].
Defined.

(** X3. With at least one row above it, the last row alone decides the
    result: the rows before it, the header included, are never read. *)
Theorem allocation_reads_last_row_only
    today (above above' : snapshot) (last_row : row) prefix :
  above <> [] -> above' <> [] ->
  generate_record_id today (above ++ [last_row]) prefix
  = generate_record_id today (above' ++ [last_row]) prefix.
Proof.
  intros Ha Ha'.
  assert (forall rows : snapshot, rows <> [] -> (2 <= length (rows ++ [last_row]))%nat) as Hlen.
  { intros [|r rows] Hr; [done|]. rewrite length_app. simpl. lia. }
  rewrite (generate_record_id_last today (above ++ [last_row]) prefix last_row
             (Hlen _ Ha) (last_snoc _ _)).
  by rewrite (generate_record_id_last today (above' ++ [last_row]) prefix last_row
                (Hlen _ Ha') (last_snoc _ _)).
Qed.

Lemma allocation_reads_last_row_only_witness :
  generate_record_id march_2025
    ([complaints_header; complaint_row "C-0325-009" "bob"] ++ [complaint_row "C-0325-002" "alice"])
    "C"
  = generate_record_id march_2025
      ([complaints_header] ++ [complaint_row "C-0325-002" "alice"]) "C".
Proof.
  apply (allocation_reads_last_row_only march_2025
           [complaints_header; complaint_row "C-0325-009" "bob"] [complaints_header]);
    discriminate.
Defined.

(** X4. Uniqueness rests on the order of the rows.  When the row before the
    last already carries the serial that follows the last row's, the
    allocator returns that identifier again. *)
Theorem allocation_repeats_earlier_id
    today (above : snapshot) prefix n stamp1 fields1 stamp2 fields2 :
  0 <= n ->
  let id_of k := id_head today prefix +:+ "-" +:+ Py.format_0d 3 k in
  let cached_values :=
    above ++ [stamp1 :: id_of (n + 1) :: fields1; stamp2 :: id_of n :: fields2] in
  generate_record_id today cached_values prefix = Ok (id_of (n + 1))
  /\ exists earlier : row, earlier ∈ cached_values /\ earlier !! 1%nat = Some (id_of (n + 1)).
Proof.
  intros Hn id_of cached_values. split.
  - unfold cached_values.
    rewrite (generate_record_id_last _ _ _ (stamp2 :: id_of n :: fields2)).
    + simpl. unfold id_of. rewrite startswith_app, last_serial_of_app.
      * by rewrite int_format_0d by lia.
      * apply all_digits_no_dash, all_digits_format_0d. lia.
    + rewrite length_app. simpl. lia.
    + by rewrite (last_app_cons above [_]).
  - exists (stamp1 :: id_of (n + 1) :: fields1). split; [|done].
    unfold cached_values. rewrite elem_of_app. right. by left.
Qed.

Lemma allocation_repeats_earlier_id_witness :
  generate_record_id march_2025
    ([complaints_header]
     ++ [complaint_row "C-0325-008" "bob"; complaint_row "C-0325-007" "alice"]) "C"
    = Ok "C-0325-008"
  /\ exists earlier : row,
       earlier ∈ [complaints_header] ++
                 [complaint_row "C-0325-008" "bob"; complaint_row "C-0325-007" "alice"]
       /\ earlier !! 1%nat = Some "C-0325-008".
Proof.
  apply (allocation_repeats_earlier_id march_2025 [complaints_header] "C" 7
           "2025-03-01 10:00:00" ["Aspirin"; "High"; "555-0100"; "Broken seal"; "bob"; ""]
           "2025-03-01 10:00:00" ["Aspirin"; "High"; "555-0100"; "Broken seal"; "alice"; ""]).
  lia.
Defined.

(** X5. On a sheet that has its header, once the allocated identifier is
    written in the second cell of a new last row, the next allocation of the
    same month returns the following serial, and a different identifier. *)
Theorem allocation_continues_after_append
    today (cached_values : snapshot) prefix id stamp fields :
  cached_values <> [] ->
  generate_record_id today cached_values prefix = Ok id ->
  exists n,
    id = prefix +:+ "-" +:+ strftime_m today +:+ strftime_y today +:+ "-"
         +:+ Py.format_0d 3 n
    /\ generate_record_id today (cached_values ++ [stamp :: id :: fields]) prefix
       = Ok (prefix +:+ "-" +:+ strftime_m today +:+ strftime_y today +:+ "-"
             +:+ Py.format_0d 3 (n + 1))
    /\ generate_record_id today (cached_values ++ [stamp :: id :: fields]) prefix <> Ok id.
Proof.
  intros Hrows Hid.
  destruct (generate_record_id_next _ _ _ _ stamp fields Hrows Hid) as (n & Hn & -> & Hnext).
  exists n. rewrite Hnext, !id_head_eq. split; [done|]. split; [done|].
  intros [= Heq]. repeat apply (inj (String.app _)) in Heq.
  apply (f_equal Py.int) in Heq. rewrite !int_format_0d in Heq by lia.
  injection Heq. lia.
Qed.

Lemma allocation_continues_after_append_witness :
  exists n,
    "C-0325-001" = "C" +:+ "-" +:+ strftime_m march_2025 +:+ strftime_y march_2025 +:+ "-"
                   +:+ Py.format_0d 3 n
    /\ generate_record_id march_2025
         ([complaints_header] ++ ["2025-03-14 09:30:00" :: "C-0325-001" :: ["Aspirin"]]) "C"
       = Ok ("C" +:+ "-" +:+ strftime_m march_2025 +:+ strftime_y march_2025 +:+ "-"
             +:+ Py.format_0d 3 (n + 1))
    /\ generate_record_id march_2025
         ([complaints_header] ++ ["2025-03-14 09:30:00" :: "C-0325-001" :: ["Aspirin"]]) "C"
       <> Ok "C-0325-001".
Proof.
  apply (allocation_continues_after_append march_2025 [complaints_header] "C" "C-0325-001"
           "2025-03-14 09:30:00" ["Aspirin"]);
    [discriminate | reflexivity].
Defined.

(** * The handlers *)

Section Handlers.

Variable drive_create : list drive_file -> drive_file -> option string.
Variable sheet_accepts : snapshot -> row -> bool.

Implicit Types (w : world) (file : option uploaded_file) (new_data : string -> row).

Lemma submit_complaint_register now user_name complaint_id form w :
  submit_complaint drive_create sheet_accepts now user_name complaint_id form w =
    if truthy (product form) && truthy (details form) && truthy (contact_number form)
    then register drive_create sheet_accepts "Complaints" complaint_id (attachment form)
           (fun file_url =>
              [strftime_stamp now; complaint_id; product form; severity form;
               contact_number form; details form; user_name; file_url]) w
    else (Ok ValidationError, w).
Proof. reflexivity. Qed.

Lemma submit_deviation_register now user_name deviation_id form w :
  submit_deviation drive_create sheet_accepts now user_name deviation_id form w =
    if truthy (department form) && truthy (deviation_description form)
    then register drive_create sheet_accepts "Deviation" deviation_id (deviation_file form)
           (fun file_url =>
              [strftime_stamp now; deviation_id; department form; deviation_type form;
               deviation_description form; user_name; file_url]) w
    else (Ok ValidationError, w).
Proof. reflexivity. Qed.

Lemma submit_change_request_register now user_name change_id form w :
  submit_change_request drive_create sheet_accepts now user_name change_id form w =
    if truthy (change_type form) && truthy (justification form)
       && truthy (impact_analysis form)
    then register drive_create sheet_accepts "Change Control" change_id (change_file form)
           (fun file_url =>
              [strftime_stamp now; change_id; change_type form; justification form;
               impact_analysis form; user_name; file_url]) w
    else (Ok ValidationError, w).
Proof. reflexivity. Qed.

Lemma register_Ok sheet record_id file new_data w shown w' :
  register drive_create sheet_accepts sheet record_id file new_data w = (Ok shown, w') ->
  exists file_url rows,
    shown = Registered record_id file_url
    /\ sheets w !! sheet = Some rows
    /\ sheet_accepts rows (new_data file_url) = true
    /\ sheets w' = <[sheet := rows ++ [new_data file_url]]> (sheets w)
    /\ drive w' = drive_after drive_create record_id file w
    /\ match file with
       | None => file_url = ""
       | Some u =>
           exists file_id,
             drive_create (drive w) (drive_copy record_id u) = Some file_id
             /\ file_url = drive_link file_id
       end.
Proof.
  unfold register, upload_to_drive, append_row, drive_after, drive_copy, drive_link.
  destruct file as [u|].
  - destruct (drive_create _ _) as [file_id|] eqn:Hcreate; [|done]. simpl.
    destruct (sheets w !! sheet) as [rows|] eqn:Hrows; [|done].
    destruct (sheet_accepts rows _) eqn:Hacc; [|done].
    intros [= <- <-]. eexists _, rows. repeat split; try done. by exists file_id.
  - simpl. destruct (sheets w !! sheet) as [rows|] eqn:Hrows; [|done].
    destruct (sheet_accepts rows _) eqn:Hacc; [|done].
    intros [= <- <-]. by eexists _, rows.
Qed.

Lemma register_Raise sheet record_id file new_data w e w' :
  register drive_create sheet_accepts sheet record_id file new_data w = (Raise e, w') ->
  sheets w' = sheets w
  /\ drive w' = drive_after drive_create record_id file w
  /\ (e = HttpError /\ w' = w
        /\ (exists u, file = Some u /\ drive_create (drive w) (drive_copy record_id u) = None)
      \/ e = KeyError /\ sheets w !! sheet = None
      \/ e = APIError /\ exists rows, sheets w !! sheet = Some rows).
Proof.
  unfold register, upload_to_drive, append_row, drive_after, drive_copy.
  destruct file as [u|].
  - destruct (drive_create _ _) as [file_id|] eqn:Hcreate.
    + simpl. destruct (sheets w !! sheet) as [rows|] eqn:Hrows.
      * destruct (sheet_accepts rows _); [done|]. intros [= <- <-].
        repeat split; [done..|]. right; right. split; [done|]. by exists rows.
      * intros [= <- <-]. repeat split; [done..|]. right; left. done.
    + intros [= <- <-]. repeat split; [done..|]. left. repeat split; [done..|]. by exists u.
  - simpl. destruct (sheets w !! sheet) as [rows|] eqn:Hrows.
    + destruct (sheet_accepts rows _); [done|]. intros [= <- <-].
      repeat split; [done..|]. right; right. split; [done|]. by exists rows.
    + intros [= <- <-]. repeat split; [done..|]. right; left. done.
Qed.

Lemma register_runs sheet record_id file new_data w rows :
  sheets w !! sheet = Some rows ->
  (forall u, file = Some u -> is_Some (drive_create (drive w) (drive_copy record_id u))) ->
  (forall file_url, sheet_accepts rows (new_data file_url) = true) ->
  exists file_url w',
    register drive_create sheet_accepts sheet record_id file new_data w
      = (Ok (Registered record_id file_url), w').
Proof.
  intros Hrows Hup Hacc.
  unfold register, upload_to_drive, append_row, drive_copy in *.
  destruct file as [u|].
  - destruct (Hup u eq_refl) as [file_id ->]. simpl. rewrite Hrows, Hacc. by eexists _, _.
  - simpl. rewrite Hrows, Hacc. by eexists _, _.
Qed.

End Handlers.

Lemma register_not_validation drive_create sheet_accepts sheet record_id file new_data w :
  fst (register drive_create sheet_accepts sheet record_id file new_data w)
  <> Ok ValidationError.
Proof.
  destruct (register _ _ _ _ _ _ _) as [[shown|e] w'] eqn:Hreg; [|done].
  apply register_Ok in Hreg as (? & ? & -> & _). done.
Qed.

(** X6. The deviation handler answers with the required-fields error, the
    store untouched, exactly when the department or the description is
    empty; the deviation type is not looked at. *)
Theorem submit_deviation_validation
    drive_create sheet_accepts now user_name deviation_id form w :
  (submit_deviation drive_create sheet_accepts now user_name deviation_id form w
     = (Ok ValidationError, w)
   <-> department form = "" \/ deviation_description form = "")
  /\ (fst (submit_deviation drive_create sheet_accepts now user_name deviation_id form w)
       = Ok ValidationError
      <-> department form = "" \/ deviation_description form = "").
Proof.
  rewrite submit_deviation_register.
  destruct (department form) as [|? ?], (deviation_description form) as [|? ?]; simpl;
    try (split; split; auto; fail).
  split; (split; [intros H|intros [|]; done]); exfalso.
  - apply (f_equal fst) in H. by apply register_not_validation in H.
  - by apply register_not_validation in H.
Qed.

(** X7. The change request handler answers with the required-fields error,
    the store untouched, exactly when the change type, the justification or
    the impact analysis is empty; so with a change type chosen in the select
    box, exactly when the justification or the impact analysis is empty. *)
Theorem submit_change_request_validation
    drive_create sheet_accepts now user_name change_id form w :
  (submit_change_request drive_create sheet_accepts now user_name change_id form w
     = (Ok ValidationError, w)
   <-> change_type form = "" \/ justification form = "" \/ impact_analysis form = "")
  /\ (fst (submit_change_request drive_create sheet_accepts now user_name change_id form w)
       = Ok ValidationError
      <-> change_type form = "" \/ justification form = "" \/ impact_analysis form = "").
Proof.
  rewrite submit_change_request_register.
  destruct (change_type form) as [|? ?], (justification form) as [|? ?],
    (impact_analysis form) as [|? ?]; simpl;
    try (split; split; auto; fail).
  split; (split; [intros H|intros [|[|]]; done]); exfalso.
  - apply (f_equal fst) in H. by apply register_not_validation in H.
  - by apply register_not_validation in H.
Qed.

(** ** What a submission leaves behind *)

Lemma rows_of_insert sheet (rows : snapshot) w w' :
  sheets w' = <[sheet := rows]> (sheets w) -> rows_of sheet w' = rows.
Proof. intros H. unfold rows_of. by rewrite H, lookup_insert_eq. Qed.

Lemma rows_of_insert_ne sheet other (rows : snapshot) w w' :
  sheets w' = <[sheet := rows]> (sheets w) -> sheet <> other ->
  rows_of other w' = rows_of other w.
Proof. intros H Hne. unfold rows_of. by rewrite H, lookup_insert_ne. Qed.

Lemma rows_of_lookup sheet (rows : snapshot) w :
  sheets w !! sheet = Some rows -> rows_of sheet w = rows.
Proof. intros H. unfold rows_of. by rewrite H. Qed.

(** A row appended below the header is listed for a name exactly when one
    of its cells is that name, case being ignored. *)
Lemma user_records_snoc (rows : snapshot) (new_row : row) user_name :
  rows <> [] ->
  user_records (rows ++ [new_row]) user_name
  = user_records rows user_name
    ++ (if decide (names_submitter user_name new_row) then [new_row] else []).
Proof.
  intros Hrows. rewrite !user_records_filter.
  destruct rows as [|headers rest]; [done|]. simpl drop. rewrite !drop_0.
  by rewrite filter_app.
Qed.

Lemma names_submitter_cell user_name cell (r : row) :
  cell ∈ r -> Py.lower user_name = Py.lower cell -> names_submitter user_name r.
Proof. intros Hin Heq. apply Exists_exists. by exists cell. Qed.

(** X8. A complaint with its three required fields, a sheet that takes the
    row and, when a file is attached, a Drive that takes the file: the
    handler reports the identifier, appends exactly the row
    [[timestamp, id, product, severity, contact, details, submitter, link]]
    to the complaints sheet and to no other, and Drive gains the attachment
    under the name [{id}_{file name}], or nothing when there is none (the
    link cell is then empty). *)
Theorem complaint_registered
    drive_create sheet_accepts now user_name complaint_id form w rows :
  product form <> "" -> details form <> "" -> contact_number form <> "" ->
  sheets w !! "Complaints" = Some rows ->
  (forall u, attachment form = Some u ->
             is_Some (drive_create (drive w) (drive_copy complaint_id u))) ->
  (forall new_data, sheet_accepts rows new_data = true) ->
  exists file_url w',
    submit_complaint drive_create sheet_accepts now user_name complaint_id form w
      = (Ok (Registered complaint_id file_url), w')
    /\ sheets w' =
         <["Complaints" :=
             rows ++ [[strftime_stamp now; complaint_id; product form; severity form;
                       contact_number form; details form; user_name; file_url]]]> (sheets w)
    /\ match attachment form with
       | None => file_url = "" /\ drive w' = drive w
       | Some u =>
           (exists file_id,
              drive_create (drive w) (drive_copy complaint_id u) = Some file_id
              /\ file_url = "https://drive.google.com/file/d/" +:+ file_id +:+ "/view")
           /\ drive w' =
                drive w ++ [mk_drive_file (complaint_id +:+ "_" +:+ file_name u)
                              (file_type u) (file_bytes u)]
       end.
Proof.
  intros Hp Hd Hc Hrows Hup Hacc. rewrite submit_complaint_register.
  destruct (product form); [done|]. destruct (details form); [done|].
  destruct (contact_number form); [done|]. simpl.
  match goal with
  | |- context [register _ _ _ _ _ ?f _] =>
      destruct (register_runs drive_create sheet_accepts "Complaints" complaint_id
                  (attachment form) f w rows Hrows Hup (fun url => Hacc _))
        as (file_url & w' & Hreg)
  end.
  exists file_url, w'. split; [done|].
  apply register_Ok in Hreg as (url & rows' & [= <-] & Hrows' & _ & Hsheets & Hdrive & Hfile).
  rewrite Hrows in Hrows'. injection Hrows' as <-. split; [done|].
  unfold drive_after in Hdrive. destruct (attachment form) as [u|]; [|done].
  destruct Hfile as (file_id & Hcreate & ->). rewrite Hcreate in Hdrive.
  split; [by exists file_id|done].
Qed.

Lemma complaint_registered_witness :
  exists file_url w',
    submit_complaint drive_up sheet_up march_2025 "alice" "C-0325-001" aspirin_with_photo
      three_sheets = (Ok (Registered "C-0325-001" file_url), w')
    /\ sheets w' =
         <["Complaints" :=
             [complaints_header]
             ++ [["2025-03-14 09:30:00"; "C-0325-001"; "Aspirin"; "High"; "555-0100";
                  "Broken seal"; "alice"; file_url]]]> (sheets three_sheets)
    /\ ((exists file_id,
           drive_up [] (drive_copy "C-0325-001" (mk_uploaded "seal.png" "image/png" "PNG"))
             = Some file_id
           /\ file_url = "https://drive.google.com/file/d/" +:+ file_id +:+ "/view")
        /\ drive w' = [] ++ [mk_drive_file "C-0325-001_seal.png" "image/png" "PNG"]).
Proof.
  apply (complaint_registered drive_up sheet_up march_2025 "alice" "C-0325-001"
           aspirin_with_photo three_sheets [complaints_header]);
    [discriminate | discriminate | discriminate | reflexivity
    | intros u _; by eexists | reflexivity].
Defined.

(** X9. A submission that ends in an exception never adds a row to any
    sheet.  When the upload is refused nothing at all has changed; when the
    append is refused after an upload, the uploaded file stays in Drive: there
    is no rollback. *)
Theorem failed_complaint_appends_nothing
    drive_create sheet_accepts now user_name complaint_id form w e w' :
  submit_complaint drive_create sheet_accepts now user_name complaint_id form w
    = (Raise e, w') ->
  sheets w' = sheets w
  /\ (e = HttpError -> w' = w)
  /\ (e = APIError ->
      forall u file_id,
        attachment form = Some u ->
        drive_create (drive w) (drive_copy complaint_id u) = Some file_id ->
        drive w' = drive w ++ [mk_drive_file (complaint_id +:+ "_" +:+ file_name u)
                                 (file_type u) (file_bytes u)]).
Proof.
  rewrite submit_complaint_register.
  destruct (truthy (product form) && truthy (details form) && truthy (contact_number form));
    [|done].
  intros (Hsheets & Hdrive & Hcases)%register_Raise. split; [done|]. split.
  - intros ->. by destruct Hcases as [(_ & ? & _)|[[? _]|[? _]]].
  - intros -> u file_id Hu Hcreate. unfold drive_after in Hdrive.
    by rewrite Hu, Hcreate in Hdrive.
Qed.

Lemma failed_complaint_appends_nothing_witness :
  sheets (mk_world (sheets three_sheets) [drive_copy "C-0325-001" (mk_uploaded "seal.png" "image/png" "PNG")])
    = sheets three_sheets
  /\ (APIError = HttpError ->
      mk_world (sheets three_sheets)
        [drive_copy "C-0325-001" (mk_uploaded "seal.png" "image/png" "PNG")] = three_sheets)
  /\ (APIError = APIError ->
      forall u file_id,
        attachment aspirin_with_photo = Some u ->
        drive_up (drive three_sheets) (drive_copy "C-0325-001" u) = Some file_id ->
        drive (mk_world (sheets three_sheets)
                 [drive_copy "C-0325-001" (mk_uploaded "seal.png" "image/png" "PNG")])
        = drive three_sheets ++ [mk_drive_file ("C-0325-001" +:+ "_" +:+ file_name u)
                                   (file_type u) (file_bytes u)]).
Proof.
  apply (failed_complaint_appends_nothing drive_up sheet_down march_2025 "alice" "C-0325-001"
           aspirin_with_photo three_sheets APIError). reflexivity.
Defined.

(** ** From a submission to the views and to the next identifier *)

(** What a registration leaves in its sheet. *)
Lemma register_rows drive_create sheet_accepts sheet record_id file new_data w shown w' :
  register drive_create sheet_accepts sheet record_id file new_data w = (Ok shown, w') ->
  exists file_url,
    shown = Registered record_id file_url
    /\ is_Some (sheets w !! sheet)
    /\ rows_of sheet w' = rows_of sheet w ++ [new_data file_url]
    /\ forall other, sheet <> other -> rows_of other w' = rows_of other w.
Proof.
  intros (file_url & rows & -> & Hrows & _ & Hsheets & _)%register_Ok.
  exists file_url. split; [done|]. split; [by eexists|].
  rewrite (rows_of_lookup _ _ _ Hrows), (rows_of_insert _ _ _ _ Hsheets). split; [done|].
  intros other Hne. by apply (rows_of_insert_ne _ _ _ _ _ Hsheets).
Qed.

(** X10. A registered complaint, on a sheet that has its header, is the new
    last row of a fresh read, carries the identifier in its second cell, and
    is listed in "My Submissions" for its submitter, and for anyone whose
    name equals, case being ignored, any cell of the row. *)
Theorem complaint_listed_for_submitter
    drive_create sheet_accepts now user_name complaint_id form w shown w' :
  submit_complaint drive_create sheet_accepts now user_name complaint_id form w
    = (Ok shown, w') ->
  shown <> ValidationError ->
  rows_of "Complaints" w <> [] ->
  exists new_row : row,
    rows_of "Complaints" w' = rows_of "Complaints" w ++ [new_row]
    /\ new_row !! 1%nat = Some complaint_id
    /\ new_row ∈ user_records (rows_of "Complaints" w') user_name
    /\ forall viewer cell,
         cell ∈ new_row -> Py.lower viewer = Py.lower cell ->
         new_row ∈ user_records (rows_of "Complaints" w') viewer.
Proof.
  rewrite submit_complaint_register.
  destruct (truthy (product form) && truthy (details form) && truthy (contact_number form)).
  2:{ by intros [= <- <-]. }
  intros (file_url & _ & _ & Hrows & _)%register_rows _ Hheader.
  eexists. split; [done|]. split; [done|].
  assert (forall viewer cell,
            cell ∈ [strftime_stamp now; complaint_id; product form; severity form;
                    contact_number form; details form; user_name; file_url] ->
            Py.lower viewer = Py.lower cell ->
            [strftime_stamp now; complaint_id; product form; severity form;
             contact_number form; details form; user_name; file_url]
            ∈ user_records (rows_of "Complaints" w') viewer) as Hany.
  { intros viewer cell Hin Heq. rewrite Hrows, (user_records_snoc _ _ _ Hheader).
    rewrite decide_True by (by apply (names_submitter_cell _ cell)).
    rewrite elem_of_app. right. by left. }
  split; [|done]. apply (Hany user_name user_name); [|done].
  rewrite !elem_of_cons. tauto.
Qed.

Lemma complaint_listed_for_submitter_witness :
  exists new_row : row,
    rows_of "Complaints"
      (snd (submit_complaint drive_up sheet_up march_2025 "Alice" "C-0325-001" aspirin
              three_sheets))
    = rows_of "Complaints" three_sheets ++ [new_row]
    /\ new_row !! 1%nat = Some "C-0325-001"
    /\ new_row ∈ user_records
         (rows_of "Complaints"
            (snd (submit_complaint drive_up sheet_up march_2025 "Alice" "C-0325-001" aspirin
                    three_sheets))) "Alice"
    /\ forall viewer cell,
         cell ∈ new_row -> Py.lower viewer = Py.lower cell ->
         new_row ∈ user_records
           (rows_of "Complaints"
              (snd (submit_complaint drive_up sheet_up march_2025 "Alice" "C-0325-001" aspirin
                      three_sheets))) viewer.
Proof.
  apply (complaint_listed_for_submitter drive_up sheet_up march_2025 "Alice" "C-0325-001"
           aspirin three_sheets (Registered "C-0325-001" ""));
    [reflexivity | discriminate | discriminate].
Defined.

(** X11. A registered deviation, on a sheet that has its header, is the new
    last row of a fresh read of the deviation sheet, with the identifier in
    its second cell and the submitter in its sixth, is listed for its
    submitter, and leaves the other sheets as they were. *)
Theorem deviation_listed_for_submitter
    drive_create sheet_accepts now user_name deviation_id form w shown w' :
  submit_deviation drive_create sheet_accepts now user_name deviation_id form w
    = (Ok shown, w') ->
  shown <> ValidationError ->
  rows_of "Deviation" w <> [] ->
  exists new_row : row,
    rows_of "Deviation" w' = rows_of "Deviation" w ++ [new_row]
    /\ new_row !! 1%nat = Some deviation_id
    /\ new_row !! 5%nat = Some user_name
    /\ new_row ∈ user_records (rows_of "Deviation" w') user_name
    /\ forall other, other <> "Deviation" -> rows_of other w' = rows_of other w.
Proof.
  rewrite submit_deviation_register.
  destruct (truthy (department form) && truthy (deviation_description form)).
  2:{ by intros [= <- <-]. }
  intros (file_url & _ & _ & Hrows & Hothers)%register_rows _ Hheader.
  eexists. split; [done|]. split; [done|]. split; [done|]. split.
  - rewrite Hrows, (user_records_snoc _ _ _ Hheader).
    rewrite decide_True.
    + rewrite elem_of_app. right. by left.
    + apply (names_submitter_cell _ user_name); [|done]. rewrite !elem_of_cons. tauto.
  - intros other Hne. by apply Hothers.
Qed.

Lemma deviation_listed_for_submitter_witness :
  exists new_row : row,
    rows_of "Deviation"
      (snd (submit_deviation drive_up sheet_up march_2025 "bob" "D-0325-001" cold_room
              three_sheets))
    = rows_of "Deviation" three_sheets ++ [new_row]
    /\ new_row !! 1%nat = Some "D-0325-001"
    /\ new_row !! 5%nat = Some "bob"
    /\ new_row ∈ user_records
         (rows_of "Deviation"
            (snd (submit_deviation drive_up sheet_up march_2025 "bob" "D-0325-001" cold_room
                    three_sheets))) "bob"
    /\ forall other, other <> "Deviation" ->
         rows_of other
           (snd (submit_deviation drive_up sheet_up march_2025 "bob" "D-0325-001" cold_room
                   three_sheets))
         = rows_of other three_sheets.
Proof.
  apply (deviation_listed_for_submitter drive_up sheet_up march_2025 "bob" "D-0325-001"
           cold_room three_sheets (Registered "D-0325-001" ""));
    [reflexivity | discriminate | discriminate].
Defined.

(** X12. A registered change request, on a sheet that has its header, is the
    new last row of a fresh read of the change control sheet, with the
    identifier in its second cell, the submitter in its sixth and the link
    of the attachment in its seventh, is listed for its submitter, and
    leaves the other sheets as they were. *)
Theorem change_request_listed_for_submitter
    drive_create sheet_accepts now user_name change_id form w shown w' :
  submit_change_request drive_create sheet_accepts now user_name change_id form w
    = (Ok shown, w') ->
  shown <> ValidationError ->
  rows_of "Change Control" w <> [] ->
  exists (new_row : row) file_url,
    shown = Registered change_id file_url
    /\ rows_of "Change Control" w' = rows_of "Change Control" w ++ [new_row]
    /\ new_row !! 1%nat = Some change_id
    /\ new_row !! 5%nat = Some user_name
    /\ new_row !! 6%nat = Some file_url
    /\ new_row ∈ user_records (rows_of "Change Control" w') user_name
    /\ forall other, other <> "Change Control" -> rows_of other w' = rows_of other w.
Proof.
  rewrite submit_change_request_register.
  destruct (truthy (change_type form) && truthy (justification form)
            && truthy (impact_analysis form)).
  2:{ by intros [= <- <-]. }
  intros (file_url & -> & _ & Hrows & Hothers)%register_rows _ Hheader.
  eexists _, file_url. split; [done|]. split; [done|]. split; [done|].
  split; [done|]. split; [done|]. split.
  - rewrite Hrows, (user_records_snoc _ _ _ Hheader).
    rewrite decide_True.
    + rewrite elem_of_app. right. by left.
    + apply (names_submitter_cell _ user_name); [|done]. rewrite !elem_of_cons. tauto.
  - intros other Hne. by apply Hothers.
Qed.

Lemma change_request_listed_for_submitter_witness :
  exists (new_row : row) file_url,
    Registered "CC-0325-001" "https://drive.google.com/file/d/0/view"
      = Registered "CC-0325-001" file_url
    /\ rows_of "Change Control"
         (snd (submit_change_request drive_up sheet_up march_2025 "carol" "CC-0325-001"
                 new_mixer three_sheets))
       = rows_of "Change Control" three_sheets ++ [new_row]
    /\ new_row !! 1%nat = Some "CC-0325-001"
    /\ new_row !! 5%nat = Some "carol"
    /\ new_row !! 6%nat = Some file_url
    /\ new_row ∈ user_records
         (rows_of "Change Control"
            (snd (submit_change_request drive_up sheet_up march_2025 "carol" "CC-0325-001"
                    new_mixer three_sheets))) "carol"
    /\ forall other, other <> "Change Control" ->
         rows_of other
           (snd (submit_change_request drive_up sheet_up march_2025 "carol" "CC-0325-001"
                   new_mixer three_sheets))
         = rows_of other three_sheets.
Proof.
  apply (change_request_listed_for_submitter drive_up sheet_up march_2025 "carol"
           "CC-0325-001" new_mixer three_sheets
           (Registered "CC-0325-001" "https://drive.google.com/file/d/0/view"));
    [reflexivity | discriminate | discriminate].
Defined.

(** X13. On a complaints sheet without any row, not even the header, the
    registered row takes the header's place: "My Submissions" lists it for
    nobody, and the allocator, which still sees fewer than two rows, returns
    for every prefix what it returns on the empty sheet. *)
Theorem first_row_of_headerless_sheet
    drive_create sheet_accepts now user_name complaint_id form w shown w' :
  submit_complaint drive_create sheet_accepts now user_name complaint_id form w
    = (Ok shown, w') ->
  shown <> ValidationError ->
  rows_of "Complaints" w = [] ->
  (forall viewer,
     my_submissions "Complaints" (rows_of "Complaints" w') viewer = Ok (Info "Complaints"))
  /\ (forall today prefix,
        generate_record_id today (rows_of "Complaints" w') prefix
        = generate_record_id today [] prefix).
Proof.
  rewrite submit_complaint_register.
  destruct (truthy (product form) && truthy (details form) && truthy (contact_number form)).
  2:{ by intros [= <- <-]. }
  intros (file_url & _ & _ & Hrows & _)%register_rows _ Hempty.
  rewrite Hrows, Hempty. split; [done|].
  intros today prefix. by rewrite !generate_record_id_short by (simpl; lia).
Qed.

Lemma first_row_of_headerless_sheet_witness :
  (forall viewer,
     my_submissions "Complaints"
       (rows_of "Complaints"
          (snd (submit_complaint drive_up sheet_up march_2025 "alice" "C-0325-001" aspirin
                  (mk_world {["Complaints" := []]} [])))) viewer
     = Ok (Info "Complaints"))
  /\ (forall today prefix,
        generate_record_id today
          (rows_of "Complaints"
             (snd (submit_complaint drive_up sheet_up march_2025 "alice" "C-0325-001" aspirin
                     (mk_world {["Complaints" := []]} [])))) prefix
        = generate_record_id today [] prefix).
Proof.
  apply (first_row_of_headerless_sheet drive_up sheet_up march_2025 "alice" "C-0325-001"
           aspirin (mk_world {["Complaints" := []]} []) (Registered "C-0325-001" ""));
    [reflexivity | discriminate | reflexivity].
Defined.

Lemma complaints_tab_Ok drive_create sheet_accepts today cached_values user_name form w
    shown w' :
  complaints_tab drive_create sheet_accepts today cached_values user_name form w
    = (Ok shown, w') ->
  shown <> ValidationError ->
  exists complaint_id file_url,
    generate_record_id today cached_values "C" = Ok complaint_id
    /\ shown = Registered complaint_id file_url
    /\ rows_of "Complaints" w' =
         rows_of "Complaints" w
         ++ [[strftime_stamp today; complaint_id; product form; severity form;
              contact_number form; details form; user_name; file_url]].
Proof.
  unfold complaints_tab.
  destruct (generate_record_id today cached_values "C") as [complaint_id|] eqn:Hid; [|done].
  rewrite submit_complaint_register.
  destruct (truthy (product form) && truthy (details form) && truthy (contact_number form)).
  2:{ by intros [= <- <-]. }
  intros (file_url & -> & _ & Hrows & _)%register_rows _.
  by exists complaint_id, file_url.
Qed.

(** X14. When each allocation reads the sheet afresh and the sheet has its
    header, a registered complaint is followed, in the same month, by the
    next serial: the next allocation does not return the identifier just
    used. *)
Theorem fresh_reads_give_successive_ids
    drive_create sheet_accepts today user_name form w shown w' :
  complaints_tab drive_create sheet_accepts today (rows_of "Complaints" w) user_name form w
    = (Ok shown, w') ->
  shown <> ValidationError ->
  rows_of "Complaints" w <> [] ->
  exists n file_url,
    shown = Registered ("C-" +:+ strftime_m today +:+ strftime_y today +:+ "-"
                        +:+ Py.format_0d 3 n) file_url
    /\ generate_record_id today (rows_of "Complaints" w') "C"
       = Ok ("C-" +:+ strftime_m today +:+ strftime_y today +:+ "-"
             +:+ Py.format_0d 3 (n + 1)).
Proof.
  intros Htab Hshown Hheader.
  destruct (complaints_tab_Ok _ _ _ _ _ _ _ _ _ Htab Hshown)
    as (complaint_id & file_url & Hid & -> & Hrows).
  destruct (generate_record_id_next _ _ _ _ (strftime_stamp today)
              [product form; severity form; contact_number form; details form; user_name;
               file_url] Hheader Hid) as (n & _ & -> & Hnext).
  exists n, file_url. rewrite Hrows, Hnext, !id_head_eq. done.
Qed.

Lemma fresh_reads_give_successive_ids_witness :
  exists n file_url,
    Registered "C-0325-001" ""
      = Registered ("C-" +:+ strftime_m march_2025 +:+ strftime_y march_2025 +:+ "-"
                    +:+ Py.format_0d 3 n) file_url
    /\ generate_record_id march_2025
         (rows_of "Complaints"
            (snd (complaints_tab drive_up sheet_up march_2025
                    (rows_of "Complaints" three_sheets) "alice" aspirin three_sheets))) "C"
       = Ok ("C-" +:+ strftime_m march_2025 +:+ strftime_y march_2025 +:+ "-"
             +:+ Py.format_0d 3 (n + 1)).
Proof.
  apply (fresh_reads_give_successive_ids drive_up sheet_up march_2025 "alice" aspirin
           three_sheets (Registered "C-0325-001" ""));
    [reflexivity | discriminate | discriminate].
Defined.

(** X15. Two complaints registered from the same cached snapshot in the
    same month are given the same identifier, and both rows are appended:
    the sheet then holds the identifier twice. *)
Theorem stale_snapshot_repeats_id
    drive_create sheet_accepts today today' (cached_values : snapshot)
    user1 form1 user2 form2 w shown1 w1 shown2 w2 :
  month today = month today' ->
  (year today mod 100 = year today' mod 100)%nat ->
  complaints_tab drive_create sheet_accepts today cached_values user1 form1 w
    = (Ok shown1, w1) ->
  complaints_tab drive_create sheet_accepts today' cached_values user2 form2 w1
    = (Ok shown2, w2) ->
  shown1 <> ValidationError -> shown2 <> ValidationError ->
  exists complaint_id url1 url2 (row1 row2 : row),
    shown1 = Registered complaint_id url1
    /\ shown2 = Registered complaint_id url2
    /\ rows_of "Complaints" w2 = rows_of "Complaints" w ++ [row1; row2]
    /\ row1 !! 1%nat = Some complaint_id
    /\ row2 !! 1%nat = Some complaint_id.
Proof.
  intros Hm Hy Htab1 Htab2 Hshown1 Hshown2.
  destruct (complaints_tab_Ok _ _ _ _ _ _ _ _ _ Htab1 Hshown1)
    as (id1 & url1 & Hid1 & -> & Hrows1).
  destruct (complaints_tab_Ok _ _ _ _ _ _ _ _ _ Htab2 Hshown2)
    as (id2 & url2 & Hid2 & -> & Hrows2).
  assert (id2 = id1) as ->.
  { unfold generate_record_id, id_head, strftime_m, strftime_y in Hid1, Hid2.
    rewrite Hm, Hy in Hid1. rewrite Hid1 in Hid2. by injection Hid2. }
  eexists id1, url1, url2, _, _. split; [done|]. split; [done|].
  rewrite Hrows2, Hrows1, <- app_assoc. done.
Qed.

Lemma stale_snapshot_repeats_id_witness :
  exists complaint_id url1 url2 (row1 row2 : row),
    Registered "C-0325-001" "" = Registered complaint_id url1
    /\ Registered "C-0325-001" "" = Registered complaint_id url2
    /\ rows_of "Complaints"
         (snd (complaints_tab drive_up sheet_up march_2025 [complaints_header] "bob" aspirin
                 (snd (complaints_tab drive_up sheet_up march_2025 [complaints_header]
                         "alice" aspirin three_sheets))))
       = rows_of "Complaints" three_sheets ++ [row1; row2]
    /\ row1 !! 1%nat = Some complaint_id
    /\ row2 !! 1%nat = Some complaint_id.
Proof.
  apply (stale_snapshot_repeats_id drive_up sheet_up march_2025 march_2025
           [complaints_header] "alice" aspirin "bob" aspirin three_sheets
           (Registered "C-0325-001" "")
           (snd (complaints_tab drive_up sheet_up march_2025 [complaints_header]
                   "alice" aspirin three_sheets))
           (Registered "C-0325-001" ""));
    [reflexivity | reflexivity | reflexivity | reflexivity | discriminate | discriminate].
Defined.

(** * One run of the page *)

Lemma io_bind_inv {A B : Type} (m : io A) (k : A -> io B) w r w2 :
  io_bind m k w = (r, w2) ->
  (exists a w1, m w = (Ok a, w1) /\ k a w1 = (r, w2))
  \/ (exists e, m w = (Raise e, w2) /\ r = Raise e).
Proof.
  unfold io_bind. destruct (m w) as [[a|e] w1].
  - intros H. left. by exists a, w1.
  - intros [= <- <-]. right. by exists e.
Qed.

Lemma io_lift_inv {A : Type} (r0 : result A) w r w' :
  io_lift r0 w = (r, w') -> r = r0 /\ w' = w.
Proof. by intros [= <- <-]. Qed.

Lemma register_frame drive_create sheet_accepts sheet record_id file new_data w r w' :
  register drive_create sheet_accepts sheet record_id file new_data w = (r, w') ->
  forall other, other <> sheet -> rows_of other w' = rows_of other w.
Proof.
  destruct r as [shown|e]; intros Hreg other Hne.
  - apply register_rows in Hreg as (_ & _ & _ & _ & Hothers). by apply Hothers.
  - apply register_Raise in Hreg as (Hsheets & _). unfold rows_of. by rewrite Hsheets.
Qed.

(** A handler behind its button: it runs only when that button is pressed,
    and then touches no sheet but its own. *)
Lemma when_pressed_frame ui b (handler : io notice) w r w' :
  (forall r0 w0, handler w = (r0, w0) ->
     forall other, other <> sheet_of b -> rows_of other w0 = rows_of other w) ->
  when_pressed ui b handler w = (r, w') ->
  (pressed ui <> Some b -> w' = w /\ r = Ok None)
  /\ (forall other, other <> sheet_of b -> rows_of other w' = rows_of other w).
Proof.
  intros Hhandler. unfold when_pressed.
  destruct (pressed ui) as [b'|]; [destruct (decide (b' = b)) as [->|Hne]|].
  - intros Hrun. split; [done|].
    apply io_bind_inv in Hrun as [(n & w1 & Hh & [= <- <-])|(e & Hh & ->)];
      by apply (Hhandler _ _ Hh).
  - intros [= <- <-]. split; [done|]. done.
  - intros [= <- <-]. split; [done|]. done.
Qed.

Lemma submit_complaint_frame drive_create sheet_accepts now user_name id form w r w' :
  submit_complaint drive_create sheet_accepts now user_name id form w = (r, w') ->
  forall other, other <> "Complaints" -> rows_of other w' = rows_of other w.
Proof.
  rewrite submit_complaint_register. destruct (_ && _).
  - apply register_frame.
  - by intros [= <- <-].
Qed.

Lemma submit_deviation_frame drive_create sheet_accepts now user_name id form w r w' :
  submit_deviation drive_create sheet_accepts now user_name id form w = (r, w') ->
  forall other, other <> "Deviation" -> rows_of other w' = rows_of other w.
Proof.
  rewrite submit_deviation_register. destruct (_ && _).
  - apply register_frame.
  - by intros [= <- <-].
Qed.

Lemma submit_change_request_frame
    drive_create sheet_accepts now user_name id form w r w' :
  submit_change_request drive_create sheet_accepts now user_name id form w = (r, w') ->
  forall other, other <> "Change Control" -> rows_of other w' = rows_of other w.
Proof.
  rewrite submit_change_request_register. destruct (_ && _).
  - apply register_frame.
  - by intros [= <- <-].
Qed.

(** The raising case of the allocator, from the shape of the last row. *)
Lemma generate_record_id_raises today (cached_values : snapshot) prefix last_row body serial :
  (2 <= length cached_values)%nat ->
  last cached_values = Some last_row ->
  last_row !! 1%nat = Some (body +:+ "-" +:+ serial) ->
  has_char "-" serial = false ->
  Py.startswith (body +:+ "-" +:+ serial) (id_head today prefix) = true ->
  Py.int serial = Raise ValueError ->
  generate_record_id today cached_values prefix = Raise ValueError.
Proof.
  intros Hlen Hlast Hid Hdash Hstart Hint.
  rewrite (generate_record_id_last _ _ _ _ Hlen Hlast), Hid. simpl.
  by rewrite Hstart, (last_serial_of_app _ _ Hdash), Hint.
Qed.

(** X16. One unreadable row stops every intake.  When the cached complaints
    sheet has at least two rows and ends in an identifier that starts with
    this month's [C-{MM}{YY}] and whose last segment [int] rejects, each run of the page for a named
    user raises [ValueError] before any handler: whichever button was
    pressed, no deviation and no change request is registered, and nothing is
    written. *)
Theorem unreadable_serial_blocks_page
    drive_create sheet_accepts today (cached : string -> snapshot) ui w
    last_row body serial :
  user_name_box ui <> "" ->
  (2 <= length (cached "Complaints"))%nat ->
  last (cached "Complaints") = Some last_row ->
  last_row !! 1%nat = Some (body +:+ "-" +:+ serial) ->
  has_char "-" serial = false ->
  Py.startswith (body +:+ "-" +:+ serial)
    ("C-" +:+ strftime_m today +:+ strftime_y today) = true ->
  Py.int serial = Raise ValueError ->
  page_intake drive_create sheet_accepts today cached ui w = (Raise ValueError, w).
Proof.
  intros Hname Hlen Hlast Hid Hdash Hstart Hint. unfold page_intake.
  destruct (user_name_box ui); [done|]. simpl.
  unfold io_bind at 1. unfold io_lift.
  change ("C-" +:+ strftime_m today +:+ strftime_y today) with (id_head today "C") in Hstart.
  by rewrite (generate_record_id_raises _ _ _ _ _ _ Hlen Hlast Hid Hdash Hstart Hint).
Qed.

Lemma unreadable_serial_blocks_page_witness :
  page_intake drive_up sheet_up march_2025
    (fun name => if String.eqb name "Complaints"
                 then [complaints_header; complaint_row "C-0325-abc" "alice"]
                 else [deviation_header])
    (mk_widgets "bob" aspirin cold_room new_mixer (Some SubmitDeviation)) three_sheets
  = (Raise ValueError, three_sheets).
Proof.
  apply (unreadable_serial_blocks_page drive_up sheet_up march_2025
           (fun name => if String.eqb name "Complaints"
                        then [complaints_header; complaint_row "C-0325-abc" "alice"]
                        else [deviation_header])
           (mk_widgets "bob" aspirin cold_room new_mixer (Some SubmitDeviation)) three_sheets
           (complaint_row "C-0325-abc" "alice") "C-0325" "abc");
    [discriminate | simpl; lia | reflexivity | reflexivity | reflexivity | reflexivity
    | reflexivity].
Defined.

(** X17. A run writes to one sheet at most: with no button pressed, or no
    user name entered, the store is left as it is, and with a button pressed
    every sheet other than that button's own reads as before, whether the
    run ends normally or in an exception. *)
Theorem page_intake_writes_one_sheet
    drive_create sheet_accepts today (cached : string -> snapshot) ui w r w' :
  page_intake drive_create sheet_accepts today cached ui w = (r, w') ->
  (user_name_box ui = "" -> r = Ok Stopped /\ w' = w)
  /\ (pressed ui = None -> w' = w)
  /\ (forall b other,
        pressed ui = Some b -> other <> sheet_of b -> rows_of other w' = rows_of other w).
Proof.
  unfold page_intake. destruct (user_name_box ui) as [|c name] eqn:Hname; simpl.
  { intros [= <- <-]. repeat split; done. }
  intros Hrun. split; [done|].
  pose proof (fun id w r w' => when_pressed_frame ui SubmitComplaint
    (submit_complaint drive_create sheet_accepts today (String c name) id (complaint_box ui))
    w r w' (submit_complaint_frame _ _ _ _ _ _ w)) as H1.
  pose proof (fun id w r w' => when_pressed_frame ui SubmitDeviation
    (submit_deviation drive_create sheet_accepts today (String c name) id (deviation_box ui))
    w r w' (submit_deviation_frame _ _ _ _ _ _ w)) as H2.
  pose proof (fun id w r w' => when_pressed_frame ui SubmitChangeRequest
    (submit_change_request drive_create sheet_accepts today (String c name) id (change_box ui))
    w r w' (submit_change_request_frame _ _ _ _ _ _ w)) as H3.
  assert (exists wa wb,
            (pressed ui <> Some SubmitComplaint -> wa = w)
            /\ (forall other, other <> "Complaints" -> rows_of other wa = rows_of other w)
            /\ (pressed ui <> Some SubmitDeviation -> wb = wa)
            /\ (forall other, other <> "Deviation" -> rows_of other wb = rows_of other wa)
            /\ (pressed ui <> Some SubmitChangeRequest -> w' = wb)
            /\ (forall other, other <> "Change Control" ->
                  rows_of other w' = rows_of other wb)) as (wa & wb & Ha & Ha' & Hb & Hb' & Hc & Hc').
  { apply io_bind_inv in Hrun
      as [(id1 & w1 & [_ ->]%io_lift_inv & Hrun)|(e & [_ Hw]%io_lift_inv & _)].
    2:{ subst w'. exists w, w. repeat split; done. }
    apply io_bind_inv in Hrun as [(s1 & wa & Hp1 & Hrun)|(e & Hp1 & _)].
    2:{ destruct (H1 _ _ _ _ Hp1) as [Hn Hf]. exists w', w'. repeat split; try done.
        intros Hne. by apply Hn. }
    destruct (H1 _ _ _ _ Hp1) as [Hn1 Hf1].
    apply io_bind_inv in Hrun
      as [(id2 & w2 & [_ ->]%io_lift_inv & Hrun)|(e & [_ Hw]%io_lift_inv & _)].
    2:{ subst w'. exists wa, wa. repeat split; try done. intros Hne. by apply Hn1. }
    apply io_bind_inv in Hrun as [(s2 & wb & Hp2 & Hrun)|(e & Hp2 & _)].
    2:{ destruct (H2 _ _ _ _ Hp2) as [Hn Hf]. exists wa, w'. repeat split; try done.
        - intros Hne. by apply Hn1.
        - intros Hne. by apply Hn. }
    destruct (H2 _ _ _ _ Hp2) as [Hn2 Hf2].
    apply io_bind_inv in Hrun
      as [(id3 & w3 & [_ ->]%io_lift_inv & Hrun)|(e & [_ Hw]%io_lift_inv & _)].
    2:{ subst w'. exists wa, wb. repeat split; try done.
        - intros Hne. by apply Hn1.
        - intros Hne. by apply Hn2. }
    apply io_bind_inv in Hrun as [(s3 & wc & Hp3 & [= _ Hw])|(e & Hp3 & _)];
      [subst wc|]; destruct (H3 _ _ _ _ Hp3) as [Hn3 Hf3]; exists wa, wb;
      repeat split; try done.
    - intros Hne. by apply Hn1.
    - intros Hne. by apply Hn2.
    - intros Hne. by apply Hn3.
    - intros Hne. by apply Hn1.
    - intros Hne. by apply Hn2.
    - intros Hne. by apply Hn3. }
  split.
  - intros Hnone. rewrite Hc, Hb, Ha; by rewrite ?Hnone.
  - intros b other Hb0 Hother. destruct b; simpl in Hother.
    + rewrite Hc, Hb by (by rewrite Hb0). by apply Ha'.
    + rewrite Hc by (by rewrite Hb0). rewrite (Hb' _ Hother). by rewrite Ha by (by rewrite Hb0).
    + rewrite (Hc' _ Hother). rewrite Hb, Ha; by rewrite ?Hb0.
Qed.

Lemma page_intake_writes_one_sheet_witness :
  let ui := mk_widgets "bob" aspirin cold_room new_mixer (Some SubmitDeviation) in
  let run :=
    page_intake drive_up sheet_up march_2025 (fun name => rows_of name three_sheets) ui
      three_sheets in
  (user_name_box ui = "" -> fst run = Ok Stopped /\ snd run = three_sheets)
  /\ (pressed ui = None -> snd run = three_sheets)
  /\ (forall b other,
        pressed ui = Some b -> other <> sheet_of b ->
        rows_of other (snd run) = rows_of other three_sheets).
Proof.
  apply (page_intake_writes_one_sheet drive_up sheet_up march_2025
           (fun name => rows_of name three_sheets)
           (mk_widgets "bob" aspirin cold_room new_mixer (Some SubmitDeviation)) three_sheets).
  apply surjective_pairing.
Defined.

(** X18. An exception in a later tab does not undo what an earlier tab did
    in the same run: when the complaint handler has run and the allocation
    for the deviation tab then raises, the run ends in that exception with
    the store as the complaint handler left it, the appended row included. *)
Theorem later_failure_keeps_registration
    drive_create sheet_accepts today (cached : string -> snapshot) ui w
    complaint_id shown w1 e :
  user_name_box ui <> "" ->
  pressed ui = Some SubmitComplaint ->
  generate_record_id today (cached "Complaints") "C" = Ok complaint_id ->
  submit_complaint drive_create sheet_accepts today (user_name_box ui) complaint_id
    (complaint_box ui) w = (Ok shown, w1) ->
  generate_record_id today (cached "Deviation") "D" = Raise e ->
  page_intake drive_create sheet_accepts today cached ui w = (Raise e, w1)
  /\ (shown <> ValidationError ->
      exists new_row : row,
        rows_of "Complaints" w1 = rows_of "Complaints" w ++ [new_row]
        /\ new_row !! 1%nat = Some complaint_id).
Proof.
  intros Hname Hpressed Hid Hsubmit Hdev. split.
  - unfold page_intake. destruct (user_name_box ui); [done|]. simpl.
    unfold io_bind at 1. unfold io_lift at 1. rewrite Hid.
    unfold io_bind at 1. unfold when_pressed. rewrite Hpressed. simpl.
    unfold io_bind at 1. rewrite Hsubmit. unfold io_ret at 1.
    unfold io_bind at 1. unfold io_lift at 1. by rewrite Hdev.
  - intros Hshown. revert Hsubmit. rewrite submit_complaint_register.
    destruct (_ && _).
    2:{ by intros [= <- <-]. }
    intros (file_url & _ & _ & Hrows & _)%register_rows. by eexists.
Qed.

Lemma later_failure_keeps_registration_witness :
  let cached name :=
    if String.eqb name "Deviation"
    then [deviation_header; ["2025-03-02 11:00:00"; "D-0325-x"]]
    else rows_of name three_sheets in
  let ui := mk_widgets "alice" aspirin cold_room new_mixer (Some SubmitComplaint) in
  let w1 := snd (submit_complaint drive_up sheet_up march_2025 "alice" "C-0325-001" aspirin
                   three_sheets) in
  page_intake drive_up sheet_up march_2025 cached ui three_sheets = (Raise ValueError, w1)
  /\ (Registered "C-0325-001" "" <> ValidationError ->
      exists new_row : row,
        rows_of "Complaints" w1 = rows_of "Complaints" three_sheets ++ [new_row]
        /\ new_row !! 1%nat = Some "C-0325-001").
Proof.
  apply (later_failure_keeps_registration drive_up sheet_up march_2025
           (fun name =>
              if String.eqb name "Deviation"
              then [deviation_header; ["2025-03-02 11:00:00"; "D-0325-x"]]
              else rows_of name three_sheets)
           (mk_widgets "alice" aspirin cold_room new_mixer (Some SubmitComplaint))
           three_sheets "C-0325-001" (Registered "C-0325-001" ""));
    [discriminate | reflexivity | reflexivity | reflexivity | reflexivity].
Defined.

(** * The views *)

Lemma my_submissions_Raise name (data : snapshot) user_name e :
  my_submissions name data user_name = Raise e <-> e = IndexError /\ data = [].
Proof.
  unfold my_submissions. run_result. destruct data as [|headers rest]; simpl.
  - split; [by intros [= <-]|by intros [-> _]].
  - split; [done|by intros [_ ?]].
Qed.

(** X19. The loop of "My Submissions" draws the sheets in the order
    Complaints, Deviation, Change Control and stops with [IndexError] at the
    first snapshot that has no row.  The heading of that sheet and all that
    was drawn for the sheets before it stay on the page, and nothing is drawn
    for the sheets after it.  The loop runs to its end exactly when each of
    the three snapshots has a row. *)
Theorem my_tab_stops_at_first_empty_sheet (sheet_data : string -> snapshot) user_name :
  (sheet_data "Complaints" = [] ->
   my_tab sheet_data user_name = ([Heading "Complaints"], Some IndexError))
  /\ (forall complaints,
        my_submissions "Complaints" (sheet_data "Complaints") user_name = Ok complaints ->
        sheet_data "Deviation" = [] ->
        my_tab sheet_data user_name
        = ([Heading "Complaints"; Body complaints; Heading "Deviation"], Some IndexError))
  /\ (forall complaints deviations,
        my_submissions "Complaints" (sheet_data "Complaints") user_name = Ok complaints ->
        my_submissions "Deviation" (sheet_data "Deviation") user_name = Ok deviations ->
        sheet_data "Change Control" = [] ->
        my_tab sheet_data user_name
        = ([Heading "Complaints"; Body complaints; Heading "Deviation"; Body deviations;
            Heading "Change Control"], Some IndexError))
  /\ (forall complaints deviations changes,
        my_submissions "Complaints" (sheet_data "Complaints") user_name = Ok complaints ->
        my_submissions "Deviation" (sheet_data "Deviation") user_name = Ok deviations ->
        my_submissions "Change Control" (sheet_data "Change Control") user_name
          = Ok changes ->
        my_tab sheet_data user_name
        = ([Heading "Complaints"; Body complaints; Heading "Deviation"; Body deviations;
            Heading "Change Control"; Body changes], None))
  /\ (snd (my_tab sheet_data user_name) = None
      <-> sheet_data "Complaints" <> [] /\ sheet_data "Deviation" <> []
          /\ sheet_data "Change Control" <> [])
  /\ (forall e, snd (my_tab sheet_data user_name) = Some e -> e = IndexError).
Proof.
  assert (forall name,
            (exists shown, my_submissions name (sheet_data name) user_name = Ok shown
                           /\ sheet_data name <> [])
            \/ (my_submissions name (sheet_data name) user_name = Raise IndexError
                /\ sheet_data name = [])) as Hsheet.
  { intros name. destruct (my_submissions name (sheet_data name) user_name) as [d|e] eqn:Hd.
    - left. exists d. split; [done|]. intros Hnil. rewrite Hnil in Hd. done.
    - right. by apply my_submissions_Raise in Hd as [-> ->]. }
  unfold my_tab, sheet_names. simpl.
  destruct (Hsheet "Complaints") as [(d1 & -> & Hn1)|[-> Hn1]],
    (Hsheet "Deviation") as [(d2 & -> & Hn2)|[-> Hn2]],
    (Hsheet "Change Control") as [(d3 & -> & Hn3)|[-> Hn3]]; simpl.
  all: repeat split; try done; try congruence.
  all: try (intros; simplify_eq; done).
  all: try (intros (? & ? & ?); done).
Qed.

(** X20. The admin panel opens for the password [qaadmin123] and no other
    text.  Open, it shows each sheet whole, header included, when the sheet
    has more than one row, and a notice otherwise; so every record that "My
    Submissions" lists for any user is in the admin's table of that sheet. *)
Theorem admin_panel_shows_all admin_password (sheet_data : string -> snapshot) :
  ((exists tabs, admin_panel admin_password sheet_data = Granted tabs)
   <-> admin_password = "qaadmin123")
  /\ (forall tabs,
        admin_panel admin_password sheet_data = Granted tabs ->
        tabs = (fun name => if decide (1 < length (sheet_data name))%nat
                            then Table (sheet_data name) else Info name) <$> sheet_names)
  /\ (forall name user_name (r : row),
        r ∈ user_records (sheet_data name) user_name ->
        admin_sheet name (sheet_data name) = Table (sheet_data name)
        /\ r ∈ sheet_data name).
Proof.
  unfold admin_panel. split; [|split].
  - destruct (String.eqb_spec admin_password "qaadmin123") as [->|Hne].
    + split; [done|]. intros _. by eexists.
    + split; [by intros [? ?]|done].
  - intros tabs. destruct (String.eqb admin_password "qaadmin123"); [|done].
    by intros [= <-].
  - intros name user_name r Hr. rewrite user_records_filter in Hr.
    apply list_elem_of_filter in Hr as [_ Hr]. unfold admin_sheet.
    destruct (sheet_data name) as [|headers rest]; [by apply elem_of_nil in Hr|].
    change (drop 1 (headers :: rest)) with rest in Hr.
    destruct rest as [|r' rest]; [by apply elem_of_nil in Hr|].
    split; [|by right].
    destruct (decide (1 < length (headers :: r' :: rest))%nat) as [|Hshort]; [done|].
    simpl in Hshort. lia.
Qed.
